(** * Balance service: the transfer engine and the balance routes

    A shallow embedding of [app/crud.py], [app/routes.py],
    [models/models.py] and of the schema declared in [models/database.py].

    Money is a [DECIMAL(15, 2)] column: it is held here as an integer number
    of hundredths (cents), so [100000] stands for [1000.00].  The request
    models receive arbitrary [Decimal]s; they are modelled with their
    coefficient and exponent so that [quantize] can be written out. *)

From Stdlib Require Import ZArith Lia Bool.
From stdpp Require Import base option list gmap strings fin_maps.
From Stdlib Require Import Ascii.

Local Open Scope Z_scope.

(** ** Schema ([models/database.py], [init_database]) *)

(** A row of [users].  [password_hash], [created_at] and [updated_at] take no
    part in any balance computation and are left out. *)
Record user_row := mk_user_row {
  username : string;
  balance : Z
}.

(** A row of [transfers] ([created_at] left out). *)
Record transfer_row := mk_transfer_row {
  id : Z;
  from_user_id : Z;
  to_user_id : Z;
  amount : Z;
  description : option string
}.

(** [users] is keyed by its primary key [id]; [transfers] is kept in insertion
    order; [transfers_id_seq] is the sequence behind [transfers.id SERIAL]. *)
Record database := mk_database {
  users : gmap Z user_row;
  transfers : list transfer_row;
  transfers_id_seq : Z
}.

(** The tables after [balance] of the row [user_id], which was [r], is set
    to [v]. *)
Definition with_balance (d : database) (user_id : Z) (r : user_row) (v : Z)
  : database :=
  mk_database (<[user_id := mk_user_row (username r) v]> (users d))
    (transfers d) (transfers_id_seq d).

(** [DECIMAL(15, 2)]: at most 13 digits before the point, that is fewer than
    [10^15] cents in absolute value. *)
Definition NUMERIC_15_2_LIMIT : Z := 10 ^ 15.

(** Exceptions the engine can meet.  The three [ValueError]s are the ones
    raised by [TransferCRUD.create_transfer]; the other two come from the
    store ([asyncpg]). *)
Inductive value_error :=
| SenderNotFound        (* ValueError("Отправитель не найден") *)
| InsufficientFunds     (* ValueError("Недостаточно средств") *)
| ReceiverNotFound.     (* ValueError("Получатель не найден") *)

Inductive exn :=
| ValueError (m : value_error)
| CheckViolationError            (* a CHECK constraint of the schema *)
| NumericValueOutOfRangeError.   (* a value that does not fit DECIMAL(15, 2) *)

Inductive outcome (A : Type) :=
| Return (a : A)
| Raise (e : exn).
Arguments Return {A} a.
Arguments Raise {A} e.

#[global] Instance value_error_eq_dec : EqDecision value_error.
Proof. solve_decision. Defined.
#[global] Instance exn_eq_dec : EqDecision exn.
Proof. solve_decision. Defined.

(** ** Statements on one connection

    A connection carries the working copy of the tables and the list of the
    statements it has executed, oldest first. *)
Inductive stmt :=
| SelectBalanceForUpdate (user_id : Z)   (* SELECT balance FROM users WHERE id = $1 FOR UPDATE *)
| SelectIdForUpdate (user_id : Z)        (* SELECT id FROM users WHERE id = $1 FOR UPDATE *)
| UpdateBalanceBy (user_id : Z) (delta : Z)  (* UPDATE users SET balance = balance + delta WHERE id = $1 *)
| InsertTransfer (from_id to_id amt : Z). (* INSERT INTO transfers ... RETURNING ... *)

#[global] Instance stmt_eq_dec : EqDecision stmt.
Proof. solve_decision. Defined.

Record connection := mk_connection {
  conn_db : database;
  conn_log : list stmt
}.

Definition conn (A : Type) : Type := connection → outcome A * connection.

Definition conn_ret {A} (a : A) : conn A := λ c, (Return a, c).
Definition conn_bind {A B} (m : conn A) (k : A → conn B) : conn B :=
  λ c, match m c with
       | (Return a, c') => k a c'
       | (Raise e, c') => (Raise e, c')
       end.
Definition raise {A} (e : exn) : conn A := λ c, (Raise e, c).

#[global] Instance conn_mret : MRet conn := @conn_ret.
#[global] Instance conn_mbind : MBind conn := λ A B k m, conn_bind m k.

Definition logged (s : stmt) (c : connection) : connection :=
  mk_connection (conn_db c) (conn_log c ++ [s]).

(** What a column of type [DECIMAL(15, 2) ... CHECK (balance >= 0)] accepts:
    the range of the type is checked when the value is coerced, the CHECK
    when the row is written. *)
Definition store_balance (v : Z) : outcome Z :=
  if NUMERIC_15_2_LIMIT <=? Z.abs v then Raise NumericValueOutOfRangeError
  else if v <? 0 then Raise CheckViolationError
  else Return v.

(** [connection.fetchrow("SELECT balance FROM users WHERE id = $1 FOR UPDATE")]:
    locks the row if there is one and returns its balance. *)
Definition select_balance_for_update (user_id : Z) : conn (option Z) :=
  λ c, (Return (balance <$> users (conn_db c) !! user_id),
        logged (SelectBalanceForUpdate user_id) c).

(** [connection.fetchrow("SELECT id FROM users WHERE id = $1 FOR UPDATE")]. *)
Definition select_id_for_update (user_id : Z) : conn (option Z) :=
  λ c, (Return ((λ _, user_id) <$> users (conn_db c) !! user_id),
        logged (SelectIdForUpdate user_id) c).

(** [connection.execute("UPDATE users SET balance = balance + delta WHERE id = $1")];
    the debit is the same statement with [delta = - amount].  Returns the
    number of rows updated. *)
Definition update_balance_by (user_id delta : Z) : conn Z :=
  λ c, let c1 := logged (UpdateBalanceBy user_id delta) c in
       match users (conn_db c) !! user_id with
       | None => (Return 0, c1)
       | Some r =>
           match store_balance (balance r + delta) with
           | Raise e => (Raise e, c1)
           | Return v =>
               (Return 1,
                mk_connection (with_balance (conn_db c) user_id r v) (conn_log c1))
           end
       end.

(** [INSERT INTO transfers (from_user_id, to_user_id, amount, description)
    VALUES ($1, $2, $3, $4) RETURNING ...].  The default of [id] is drawn from
    the sequence before the row is checked; the row must fit [DECIMAL(15, 2)]
    and satisfy [CHECK (amount > 0)] and [CHECK (from_user_id != to_user_id)].
    The two foreign keys hold at the only call site, which has found both
    rows under a lock. *)
Definition insert_transfer (from_id to_id amt : Z) (descr : option string)
  : conn transfer_row :=
  λ c, let d := conn_db c in
       let new_id := transfers_id_seq d + 1 in
       let log' := conn_log c ++ [InsertTransfer from_id to_id amt] in
       let drawn := mk_database (users d) (transfers d) new_id in
       if NUMERIC_15_2_LIMIT <=? Z.abs amt then
         (Raise NumericValueOutOfRangeError, mk_connection drawn log')
       else if (amt <=? 0) || (from_id =? to_id) then
         (Raise CheckViolationError, mk_connection drawn log')
       else
         let row := mk_transfer_row new_id from_id to_id amt descr in
         (Return row,
          mk_connection (mk_database (users d) (transfers d ++ [row]) new_id) log').

(** [async with connection.transaction()]: commit when the block returns, roll
    back when an exception leaves it.  A rollback restores the tables; a value
    drawn from a sequence is not given back. *)
Definition transaction {A} (body : conn A) (d : database) : outcome A * database :=
  match body (mk_connection d []) with
  | (Return a, c) => (Return a, conn_db c)
  | (Raise e, c) =>
      (Raise e, mk_database (users d) (transfers d) (transfers_id_seq (conn_db c)))
  end.

(** Rows a statement asks an exclusive lock for, and whether it writes. *)
Definition lock_of (s : stmt) : list Z :=
  match s with
  | SelectBalanceForUpdate u | SelectIdForUpdate u => [u]
  | _ => []
  end.
Definition lock_order (l : list stmt) : list Z := concat (lock_of <$> l).

Definition is_write (s : stmt) : bool :=
  match s with
  | UpdateBalanceBy _ _ | InsertTransfer _ _ _ => true
  | _ => false
  end.
Definition writes (l : list stmt) : list stmt := filter (λ s, is_write s = true) l.

(** ** [models/models.py] *)

Module Models.

(** A finite [decimal.Decimal]: the number [coefficient * 10 ^ exponent].
    [-exponent] is the number of fractional digits it is written with.
    (pydantic refuses NaN and the infinities for a [Decimal] field.) *)
Record Decimal := mk_Decimal {
  coefficient : Z;
  exponent : Z
}.

Inductive validation_error :=
| greater_than        (* Field(..., gt=0) *)
| value_error.        (* ValueError raised by the validator *)

Inductive validated (A : Type) :=
| Valid (a : A)
| Invalid (e : validation_error)
| InvalidOperation.   (* decimal.InvalidOperation, raised by quantize *)
Arguments Valid {A} a.
Arguments Invalid {A} e.
Arguments InvalidOperation {A}.

(** Precision of the default decimal context. *)
Definition prec : Z := 28.

(** Division of a non-negative [n] by [d > 0], rounded half to even
    ([ROUND_HALF_EVEN], the rounding of the default context). *)
Definition div_half_even (n d : Z) : Z :=
  let q := n / d in
  let r := n mod d in
  if (d <? 2 * r) || ((d =? 2 * r) && Z.odd q) then q + 1 else q.

(** [v.quantize(Decimal('0.01'))]: the same number with exponent [-2],
    rounded if it had more fractional digits; [InvalidOperation] if the
    coefficient of the result has more than [prec] digits. *)
Definition quantize_001 (v : Decimal) : validated Decimal :=
  let c :=
    if -2 <=? exponent v then coefficient v * 10 ^ (exponent v + 2)
    else Z.sgn (coefficient v)
         * div_half_even (Z.abs (coefficient v)) (10 ^ (-2 - exponent v)) in
  if 10 ^ prec <=? Z.abs c then InvalidOperation
  else Valid (mk_Decimal c (-2)).

(** [TransferRequest.validate_amount], [DepositRequest.validate_amount] and
    [WithdrawRequest.validate_amount] have the same body. *)
Definition validate_amount (v : Decimal) : validated Decimal :=
  if coefficient v <=? 0 then Invalid value_error
  else quantize_001 v.

(** The field [amount: Decimal = Field(..., gt=0)] with its validator: the
    constraint of the field is checked on the parsed value, then the
    validator runs. *)
Definition amount_field (v : Decimal) : validated Decimal :=
  if 0 <? coefficient v then validate_amount v
  else Invalid greater_than.

(** The number of cents of an amount with two fractional digits, which is
    what reaches the store. *)
Definition cents (v : Decimal) : Z := coefficient v.

Record User := mk_User {
  User_id : Z;
  User_username : string;
  User_balance : Z
}.

(** The request models as the routes receive them, that is after
    validation: [amount] is [cents] of the value [amount_field] let
    through. *)
Record TransferRequest := mk_TransferRequest {
  to_username : string;
  amount : Z;
  description : option string
}.

Record DepositRequest := mk_DepositRequest { deposit_amount : Z }.
Record WithdrawRequest := mk_WithdrawRequest { withdraw_amount : Z }.

Record TransferResponse := mk_TransferResponse {
  response_id : Z;
  from_username : string;
  response_to_username : string;
  response_amount : Z;
  response_description : option string
}.

Record MessageResponse := mk_MessageResponse {
  balance : option Z
}.

(** [UserCreate] as the route receives it.  [initial_balance] is
    [Optional[Decimal]] with [ge=0] and no validator: it is not quantized. *)
Record UserCreate := mk_UserCreate {
  create_username : string;
  password : string;
  initial_balance : option Decimal
}.

(** The field [initial_balance: Optional[Decimal] = Field(default=..., ge=0)]. *)
Definition initial_balance_field (v : option Decimal) : validated (option Decimal) :=
  match v with
  | None => Valid None
  | Some x => if 0 <=? coefficient x then Valid (Some x) else Invalid greater_than
  end.

End Models.

(** ** [app/crud.py] *)

(** [db.fetch_one] and [db.execute_query] take a connection of their own and
    run one statement on it, which the store commits on its own. *)

Module UserCRUD.

Definition to_User (k : Z) (r : user_row) : Models.User :=
  Models.mk_User k (username r) (balance r).

(** [SELECT ... FROM users WHERE username = $1], first row. *)
Definition get_user_by_username (d : database) (name : string)
  : option Models.User :=
  (λ kr, to_User kr.1 kr.2)
    <$> head (filter (λ kr, username kr.2 = name) (map_to_list (users d))).


(** [SELECT balance FROM users WHERE id = $1]. *)
Definition get_balance (d : database) (user_id : Z) : option Z :=
  balance <$> users d !! user_id.

(** The rows [WHERE id = $1 AND balance >= 0] selects. *)
Definition update_balance_guard (d : database) (user_id : Z) : option user_row :=
  match users d !! user_id with
  | Some r => if 0 <=? balance r then Some r else None
  | None => None
  end.

(** [UPDATE users SET balance = $2 WHERE id = $1 AND balance >= 0], and
    [result == "UPDATE 1"]. *)
Definition update_balance (d : database) (user_id new_balance : Z)
  : outcome bool * database :=
  match update_balance_guard d user_id with
  | None => (Return false, d)            (* "UPDATE 0" *)
  | Some r =>
      match store_balance new_balance with
      | Raise e => (Raise e, d)
      | Return v =>
          (Return true, with_balance d user_id r v)   (* "UPDATE 1" *)
      end
  end.

(** What [INSERT INTO users] can raise besides the exceptions of [exn];
    [hash_password] failing is the exception of the hashing library. *)
Inductive create_exn :=
| HashError
| NotNullViolationError
| UniqueViolationError
| StoreError (e : exn).

Inductive created :=
| Created (u : Models.User)
| NotCreated (e : create_exn).

(** A value assigned to a [DECIMAL(15, 2)] column is rounded to two
    fractional digits, ties away from zero; the result in cents. *)
Definition numeric_15_2 (v : Models.Decimal) : Z :=
  if -2 <=? Models.exponent v then
    Models.coefficient v * 10 ^ (Models.exponent v + 2)
  else
    let m := 10 ^ (-2 - Models.exponent v) in
    Z.sgn (Models.coefficient v) * ((2 * Z.abs (Models.coefficient v) + m) / (2 * m)).

Definition username_taken (d : database) (name : string) : bool :=
  bool_decide (map_Exists (λ _ r, username r = name) (users d)).

Section CreateUser.

(** [pwd_context.hash], a library function: [None] when it raises. *)
Variable hash_password : string → option string.

(** [INSERT INTO users (username, password_hash, balance) VALUES ($1, $2, $3)
    RETURNING ...], with the id drawn from [users_id_seq], the sequence behind
    [users.id SERIAL], which is passed in and returned.  The value of the
    balance is coerced first; then come NOT NULL, the CHECK and the two
    unique indexes (the primary key and [username UNIQUE]). *)
Definition create_user (d : database) (users_id_seq : Z)
    (user_data : Models.UserCreate) : created * database * Z :=
  match hash_password (Models.password user_data) with
  | None => (NotCreated HashError, d, users_id_seq)
  | Some _ =>
      let new_id := users_id_seq + 1 in
      match Models.initial_balance user_data with
      | None => (NotCreated NotNullViolationError, d, new_id)
      | Some v =>
          match store_balance (numeric_15_2 v) with
          | Raise e => (NotCreated (StoreError e), d, new_id)
          | Return b =>
              if bool_decide (is_Some (users d !! new_id))
                 || username_taken d (Models.create_username user_data)
              then (NotCreated UniqueViolationError, d, new_id)
              else
                (Created (Models.mk_User new_id (Models.create_username user_data) b),
                 mk_database
                   (<[new_id := mk_user_row (Models.create_username user_data) b]>
                      (users d))
                   (transfers d) (transfers_id_seq d),
                 new_id)
          end
      end
  end.

End CreateUser.

End UserCRUD.

Module TransferCRUD.

(** The body of the [try] block of [create_transfer]. *)
Definition create_transfer_body (from_user_id to_user_id amount : Z)
    (description : option string) : conn transfer_row :=
  sender_balance_row ← select_balance_for_update from_user_id;
  match sender_balance_row with
  | None => raise (ValueError SenderNotFound)
  | Some sender_balance =>
      if sender_balance <? amount then raise (ValueError InsufficientFunds)
      else
        receiver_exists ← select_id_for_update to_user_id;
        match receiver_exists with
        | None => raise (ValueError ReceiverNotFound)
        | Some _ =>
            update_balance_by from_user_id (- amount);;
            update_balance_by to_user_id amount;;
            row ← insert_transfer from_user_id to_user_id amount description;
            mret row
        end
  end.

(** The [except (ValueError, asyncpg.CheckViolationError) as e: raise e]
    clause re-raises what it catches, so the method is the transaction
    around the body. *)
Definition create_transfer (d : database) (from_user_id to_user_id amount : Z)
    (description : option string) : outcome transfer_row * database :=
  transaction (create_transfer_body from_user_id to_user_id amount description) d.

(** The connection at the moment the block is left, before the commit or
    the rollback, and the statements executed up to there. *)
Definition create_transfer_run (d : database) (from_user_id to_user_id amount : Z)
    (description : option string) : outcome transfer_row * connection :=
  create_transfer_body from_user_id to_user_id amount description
    (mk_connection d []).

Definition create_transfer_trace (d : database)
    (from_user_id to_user_id amount : Z) (description : option string)
  : list stmt :=
  conn_log (snd (create_transfer_run d from_user_id to_user_id amount description)).

(** [SELECT ... FROM transfers t JOIN users sender ... JOIN users receiver ...
    WHERE t.id = $1]. *)
Definition get_transfer_by_id (d : database) (transfer_id : Z)
  : option Models.TransferResponse :=
  t ← head (filter (λ t : transfer_row, id t = transfer_id) (transfers d));
  sender ← users d !! from_user_id t;
  receiver ← users d !! to_user_id t;
  Some (Models.mk_TransferResponse (id t) (username sender) (username receiver)
          (amount t) (description t)).

(** One row of [transfers t JOIN users sender ... JOIN users receiver ...]. *)
Definition joined (d : database) (t : transfer_row)
  : option Models.TransferResponse :=
  sender ← users d !! from_user_id t;
  receiver ← users d !! to_user_id t;
  Some (Models.mk_TransferResponse (id t) (username sender) (username receiver)
          (amount t) (description t)).

(** [SELECT ... WHERE t.from_user_id = $1 OR t.to_user_id = $1
    ORDER BY t.created_at DESC LIMIT $2 OFFSET $3].  [created_at] is the time
    of the insertion, so the newest first is the ledger read backwards. *)
Definition get_user_transfers (d : database) (user_id : Z) (limit offset : nat)
  : list Models.TransferResponse :=
  take limit
    (drop offset
       (omap (joined d)
          (filter (λ t, from_user_id t = user_id ∨ to_user_id t = user_id)
             (reverse (transfers d))))).

End TransferCRUD.

(** ** [app/routes.py] *)

Module Routes.

Inductive detail :=
| UserNotFound                    (* "Пользователь не найден" *)
| BalanceNotUpdated               (* "Не удалось обновить баланс" *)
| InsufficientBalance             (* "Недостаточно средств на балансе" *)
| SelfTransfer                    (* "Нельзя переводить деньги самому себе" *)
| RecipientNotFound (name : string) (* f"Пользователь '{to_username}' не найден" *)
| TransferNotCreated              (* "Не удалось создать перевод" *)
| Str (m : value_error)           (* str(e) of a ValueError of the engine *)
| DepositFailed (e : exn)         (* f"Ошибка пополнения баланса: {str(e)}" *)
| WithdrawFailed (e : exn)        (* f"Ошибка списания с баланса: {str(e)}" *)
| TransferFailed (e : exn).       (* f"Ошибка создания перевода: {str(e)}" *)

Inductive response (A : Type) :=
| Ok (a : A)
| HTTPException (status_code : Z) (d : detail).
Arguments Ok {A} a.
Arguments HTTPException {A} status_code d.

(** [POST /balance/deposit]. *)
Definition deposit_balance (d : database) (deposit_data : Models.DepositRequest)
    (current_user : Models.User) : response Models.MessageResponse * database :=
  match UserCRUD.get_balance d (Models.User_id current_user) with
  | None => (HTTPException 404 UserNotFound, d)
  | Some current_balance =>
      let new_balance := current_balance + Models.deposit_amount deposit_data in
      match UserCRUD.update_balance d (Models.User_id current_user) new_balance with
      | (Raise e, d') => (HTTPException 500 (DepositFailed e), d')
      | (Return false, d') => (HTTPException 400 BalanceNotUpdated, d')
      | (Return true, d') =>
          (Ok (Models.mk_MessageResponse (Some new_balance)), d')
      end
  end.

(** [POST /balance/withdraw]. *)
Definition withdraw_balance (d : database) (withdraw_data : Models.WithdrawRequest)
    (current_user : Models.User) : response Models.MessageResponse * database :=
  match UserCRUD.get_balance d (Models.User_id current_user) with
  | None => (HTTPException 404 UserNotFound, d)
  | Some current_balance =>
      if current_balance <? Models.withdraw_amount withdraw_data then
        (HTTPException 400 InsufficientBalance, d)
      else
        let new_balance := current_balance - Models.withdraw_amount withdraw_data in
        match UserCRUD.update_balance d (Models.User_id current_user) new_balance with
        | (Raise e, d') => (HTTPException 500 (WithdrawFailed e), d')
        | (Return false, d') => (HTTPException 400 BalanceNotUpdated, d')
        | (Return true, d') =>
            (Ok (Models.mk_MessageResponse (Some new_balance)), d')
        end
  end.

(** [POST /transfers/]. *)
Definition create_transfer (d : database) (transfer_data : Models.TransferRequest)
    (current_user : Models.User)
  : response (option Models.TransferResponse) * database :=
  if String.eqb (Models.to_username transfer_data)
                (Models.User_username current_user) then
    (HTTPException 400 SelfTransfer, d)
  else
    match UserCRUD.get_user_by_username d (Models.to_username transfer_data) with
    | None =>
        (HTTPException 404 (RecipientNotFound (Models.to_username transfer_data)), d)
    | Some recipient =>
        match TransferCRUD.create_transfer d
                (Models.User_id current_user) (Models.User_id recipient)
                (Models.amount transfer_data)
                (Models.description transfer_data) with
        | (Raise (ValueError m), d') => (HTTPException 400 (Str m), d')
        | (Raise e, d') => (HTTPException 500 (TransferFailed e), d')
        | (Return transfer, d') =>
            (Ok (TransferCRUD.get_transfer_by_id d' (id transfer)), d')
        end
    end.

End Routes.

(** ** [app/auth.py] *)

Module Auth.

(** [s.split(sep, 1)] when [sep] occurs in [s]: what comes before its first
    occurrence and what comes after; [None] when it does not occur (the list
    then has [s] as its only element). *)
Fixpoint split_once (sep : Ascii.ascii) (s : string) : option (string * string) :=
  match s with
  | EmptyString => None
  | String c s' =>
      if Ascii.eqb c sep then Some (EmptyString, s')
      else match split_once sep s' with
           | Some (before, after) => Some (String c before, after)
           | None => None
           end
  end.

Fixpoint occurs (c : Ascii.ascii) (s : string) : bool :=
  match s with
  | EmptyString => false
  | String c' s' => Ascii.eqb c' c || occurs c s'
  end.

Inductive decoded :=
| Credentials (username password : string)
| Unauthorized.        (* HTTPException 401, "Неверный формат авторизации" *)

Section Decode.

(** [base64.b64decode(x).decode("utf-8")], two library functions: [None] when
    one of them raises ([binascii.Error] and [UnicodeDecodeError] are
    [ValueError]s). *)
Variable b64decode_utf8 : string → option string.

(** [decode_basic_auth]: every [ValueError] and [IndexError] of the body
    becomes the 401. *)
Definition decode_basic_auth (authorization : string) : decoded :=
  if String.prefix "Basic " authorization then
    match split_once " "%char authorization with
    | None => Unauthorized
    | Some (_, encoded_credentials) =>
        match b64decode_utf8 encoded_credentials with
        | None => Unauthorized
        | Some decoded_credentials =>
            match split_once ":"%char decoded_credentials with
            | Some (username, password) => Credentials username password
            | None => Unauthorized
            end
        end
    end
  else Unauthorized.

End Decode.

End Auth.

(** The routes that read, and the registration. *)

Module Routes2.

(** What [register_user] wraps: its own [HTTPException] for a name that is
    taken ("Пользователь с таким именем уже существует"), or an exception of
    [create_user]. *)
Inductive registration_cause :=
| AlreadyExists
| CreateFailed (e : UserCRUD.create_exn).

Inductive detail :=
| UserNotFound                      (* "Пользователь не найден" *)
| TransferNotFound                  (* "Перевод не найден" *)
| NoAccess                          (* "Нет доступа к этому переводу" *)
| RegistrationFailed (cause : registration_cause).
                                    (* f"Ошибка создания пользователя: {str(e)}" *)

Inductive response (A : Type) :=
| Ok (a : A)
| HTTPException (status_code : Z) (d : detail)
| ValidationError                   (* 422, a constraint of the request *)
| InternalServerError.              (* 500, the global exception handler *)
Arguments Ok {A} a.
Arguments HTTPException {A} status_code d.
Arguments ValidationError {A}.
Arguments InternalServerError {A}.

(** [GET /balance/]; [BalanceResponse] has [balance: Decimal = Field(..., ge=0)]. *)
Definition get_balance (d : database) (current_user : Models.User) : response Z :=
  match UserCRUD.get_balance d (Models.User_id current_user) with
  | None => HTTPException 404 UserNotFound
  | Some b => if 0 <=? b then Ok b else InternalServerError
  end.

(** [GET /transfers/{transfer_id}]. *)
Definition get_transfer_by_id (d : database) (transfer_id : Z)
    (current_user : Models.User) : response Models.TransferResponse :=
  match TransferCRUD.get_transfer_by_id d transfer_id with
  | None => HTTPException 404 TransferNotFound
  | Some transfer =>
      match UserCRUD.get_user_by_username d (Models.from_username transfer),
            UserCRUD.get_user_by_username d (Models.response_to_username transfer)
      with
      | Some sender, Some recipient =>
          if negb (Models.User_id current_user =? Models.User_id sender)
             && negb (Models.User_id current_user =? Models.User_id recipient)
          then HTTPException 403 NoAccess
          else Ok transfer
      | _, _ => HTTPException 403 NoAccess
      end
  end.

(** [GET /transfers/] with [limit: int = Query(default=50, ge=1, le=100)] and
    [offset: int = Query(default=0, ge=0)]. *)
Definition get_user_transfers (d : database) (current_user : Models.User)
    (limit offset : Z) : response (list Models.TransferResponse) :=
  if (1 <=? limit) && (limit <=? 100) && (0 <=? offset) then
    Ok (TransferCRUD.get_user_transfers d (Models.User_id current_user)
          (Z.to_nat limit) (Z.to_nat offset))
  else ValidationError.

Section Register.

Variable hash_password : string → option string.

(** [POST /users/register].  The [HTTPException] raised for a name that is
    taken is itself caught by [except Exception] and wrapped. *)
Definition register_user (d : database) (users_id_seq : Z)
    (user_data : Models.UserCreate) : response Models.User * database * Z :=
  match UserCRUD.get_user_by_username d (Models.create_username user_data) with
  | Some _ =>
      (HTTPException 400 (RegistrationFailed AlreadyExists), d, users_id_seq)
  | None =>
      match UserCRUD.create_user hash_password d users_id_seq user_data with
      | (UserCRUD.Created user, d', seq') => (Ok user, d', seq')
      | (UserCRUD.NotCreated e, d', seq') =>
          (HTTPException 400 (RegistrationFailed (CreateFailed e)), d', seq')
      end
  end.

End Register.

End Routes2.

(** The statements of a transfer that runs to its end, in the order in which
    [TransferCRUD.create_transfer] issues them. *)
Definition transfer_statements (f t a : Z) : list stmt :=
  [SelectBalanceForUpdate f; SelectIdForUpdate t;
   UpdateBalanceBy f (- a); UpdateBalanceBy t a; InsertTransfer f t a].

(** The tables a transfer of [a] from [f] (row [s]) to [t] (row [r]) commits. *)
Definition committed (d : database) (f t a : Z) (ds : option string)
    (s r : user_row) : database :=
  mk_database
    (<[t := mk_user_row (username r) (balance r + a)]>
       (<[f := mk_user_row (username s) (balance s - a)]> (users d)))
    (transfers d ++ [mk_transfer_row (transfers_id_seq d + 1) f t a ds])
    (transfers_id_seq d + 1).

(** The ways through [TransferCRUD.create_transfer_body], from tables [d]:
    where the block is left, with what, and after which statements. *)
Inductive transfer_run (d : database) (f t a : Z) (ds : option string)
  : outcome transfer_row * connection → Prop :=
| run_sender_not_found :
    users d !! f = None →
    transfer_run d f t a ds
      (Raise (ValueError SenderNotFound),
       mk_connection d (take 1 (transfer_statements f t a)))
| run_insufficient_funds s :
    users d !! f = Some s → balance s < a →
    transfer_run d f t a ds
      (Raise (ValueError InsufficientFunds),
       mk_connection d (take 1 (transfer_statements f t a)))
| run_receiver_not_found s :
    users d !! f = Some s → a ≤ balance s → users d !! t = None →
    transfer_run d f t a ds
      (Raise (ValueError ReceiverNotFound),
       mk_connection d (take 2 (transfer_statements f t a)))
| run_refused_by_store s r e c n :
    users d !! f = Some s → a ≤ balance s → users d !! t = Some r →
    e = CheckViolationError ∨ e = NumericValueOutOfRangeError →
    (3 ≤ n)%nat → conn_log c = take n (transfer_statements f t a) →
    transfers (conn_db c) = transfers d →
    transfer_run d f t a ds (Raise e, c)
| run_committed s r :
    users d !! f = Some s → a ≤ balance s → users d !! t = Some r →
    f ≠ t → 0 < a →
    0 ≤ balance s - a < NUMERIC_15_2_LIMIT →
    0 ≤ balance r + a < NUMERIC_15_2_LIMIT →
    transfer_run d f t a ds
      (Return (mk_transfer_row (transfers_id_seq d + 1) f t a ds),
       mk_connection (committed d f t a ds s r) (transfer_statements f t a)).

(** ** The error kinds of the design, and the ones the engine raises *)

Inductive error_kind :=
| SelfTransferError
| InvalidAmountError
| SourceNotFoundError
| DestinationNotFoundError
| InsufficientFundsError
| StorageError.

#[global] Instance error_kind_eq_dec : EqDecision error_kind.
Proof. solve_decision. Defined.

(** The kind each [ValueError] of the engine stands for, by its message.  The
    two exceptions of the store are raised by a constraint of the schema, not
    by a check of the engine, and stand for no kind of the engine's own. *)
Definition kind_of (e : exn) : option error_kind :=
  match e with
  | ValueError SenderNotFound => Some SourceNotFoundError
  | ValueError InsufficientFunds => Some InsufficientFundsError
  | ValueError ReceiverNotFound => Some DestinationNotFoundError
  | CheckViolationError | NumericValueOutOfRangeError => None
  end.

(** The preconditions of the design document, checked in the order in which
    the document lists them: the first one that fails gives the error. *)
Definition documented_precondition_failure (d : database)
    (from_user_id to_user_id amount : Z) : option error_kind :=
  if from_user_id =? to_user_id then Some SelfTransferError
  else if amount <=? 0 then Some InvalidAmountError
  else match users d !! from_user_id with
       | None => Some SourceNotFoundError
       | Some s =>
           match users d !! to_user_id with
           | None => Some DestinationNotFoundError
           | Some _ =>
               if balance s <? amount then Some InsufficientFundsError else None
           end
       end.

(** ** Statements of the design document about the engine *)

(** The two locks of a transfer between [x] and [y] are requested in the same
    order whichever of the two is the source. *)
Definition direction_independent_locking (d : database) (x y a : Z) : Prop :=
  lock_order (TransferCRUD.create_transfer_trace d x y a None)
  = lock_order (TransferCRUD.create_transfer_trace d y x a None).

(** The call fails with an error of kind [k]. *)
Definition reports (d : database) (f t a : Z) (k : error_kind) : Prop :=
  ∃ e, fst (TransferCRUD.create_transfer d f t a None) = Raise e
       ∧ kind_of e = Some k.

(** The call fails with an error of kind [k] before it has issued any
    statement that writes. *)
Definition fails_before_writing (d : database) (f t a : Z) (k : error_kind)
  : Prop :=
  reports d f t a k
  ∧ writes (TransferCRUD.create_transfer_trace d f t a None) = [].

(** [update_balance] reports success exactly when the row exists with a
    stored balance that is not negative. *)
Definition reports_success_iff_guard (d : database) (user_id new_balance : Z)
  : Prop :=
  fst (UserCRUD.update_balance d user_id new_balance) = Return true
  ↔ ∃ r, users d !! user_id = Some r ∧ 0 ≤ balance r.

(** The amount is written with more than two fractional digits; validation
    refuses the amount. *)
Definition more_than_two_fractional_digits (v : Models.Decimal) : Prop :=
  Models.exponent v < -2.
Definition rejected (v : Models.Decimal) : Prop :=
  ∀ w, Models.amount_field v ≠ Models.Valid w.

(** ** Invariants of the tables *)

(** [CHECK (balance >= 0)]. *)
Definition non_negative (d : database) : Prop :=
  map_Forall (λ _ r, 0 ≤ balance r) (users d).

(** [CHECK (from_user_id != to_user_id)]. *)
Definition no_self_transfer (d : database) : Prop :=
  Forall (λ t, from_user_id t ≠ to_user_id t) (transfers d).

(** [username VARCHAR(50) UNIQUE]. *)
Definition unique_usernames (d : database) : Prop :=
  ∀ k1 k2 r1 r2, users d !! k1 = Some r1 → users d !! k2 = Some r2 →
                 username r1 = username r2 → k1 = k2.

(** What the schema and the sequence keep of the ledger: the ids were drawn
    from the sequence, one per record, oldest first; both users of a record
    exist ([REFERENCES users(id)]); the amount is positive. *)
Definition ledger_ids (d : database) : list Z := id <$> transfers d.
Definition ledger_valid (d : database) : Prop :=
  Forall (λ t, id t ≤ transfers_id_seq d
               ∧ is_Some (users d !! from_user_id t)
               ∧ is_Some (users d !! to_user_id t)
               ∧ 0 < amount t) (transfers d)
  ∧ NoDup (ledger_ids d).

(** Moving [a] from the balance of [f] to the balance of [t]. *)
Definition add_to_balance (a : Z) (r : user_row) : user_row :=
  mk_user_row (username r) (balance r + a).
Definition move (us : gmap Z user_row) (fta : Z * Z * Z) : gmap Z user_row :=
  alter (add_to_balance fta.2) fta.1.2 (alter (add_to_balance (- fta.2)) fta.1.1 us).

(** The sum of all balances. *)
Definition total_balance (d : database) : Z :=
  map_fold (λ _ r acc, balance r + acc) 0 (users d).

(** Running a list of transfer requests one after the other, each in its own
    transaction; [None] as soon as one of them fails. *)
Fixpoint run_transfers (d : database) (l : list (Z * Z * Z)) : option database :=
  match l with
  | [] => Some d
  | (f, t, a) :: l' =>
      match TransferCRUD.create_transfer d f t a None with
      | (Return _, d') => run_transfers d' l'
      | (Raise _, _) => None
      end
  end.

(** The scenario of the end-to-end tests: two users holding [1000.00] each. *)
Definition db0 : database :=
  mk_database
    (<[1 := mk_user_row "john" 100000]> (<[2 := mk_user_row "mary" 100000]> ∅))
    [] 0.

(** The tables after the transfer of 500.00 of the end-to-end tests. *)
Definition db1 : database :=
  mk_database
    (<[1 := mk_user_row "john" 50000]> (<[2 := mk_user_row "mary" 150000]> ∅))
    [mk_transfer_row 1 1 2 50000 (Some "test 500")] 1.

Definition john : Models.User := Models.mk_User 1 "john" 100000.

Example transfer_500 :
  fst (TransferCRUD.create_transfer db0 1 2 50000 (Some "test 500"))
  = Return (mk_transfer_row 1 1 2 50000 (Some "test 500")).
Proof. vm_compute. reflexivity. Qed.

Example transfer_5000 :
  fst (TransferCRUD.create_transfer db0 1 2 500000 None)
  = Raise (ValueError InsufficientFunds).
Proof. vm_compute. reflexivity. Qed.

Example route_transfer_500 :
  fst (Routes.create_transfer db0 (Models.mk_TransferRequest "mary" 50000 None) john)
  = Routes.Ok (Some (Models.mk_TransferResponse 1 "john" "mary" 50000 None)).
Proof. vm_compute. reflexivity. Qed.

Example quantize_1_239 :
  Models.amount_field (Models.mk_Decimal 1239 (-3))
  = Models.Valid (Models.mk_Decimal 124 (-2)).
Proof. vm_compute. reflexivity. Qed.

Example quantize_1_005 :
  Models.amount_field (Models.mk_Decimal 1005 (-3))
  = Models.Valid (Models.mk_Decimal 100 (-2)).
Proof. vm_compute. reflexivity. Qed.

(** 0.001 passes [gt=0] and is rounded to 0.00. *)
Example quantize_0_001 :
  Models.amount_field (Models.mk_Decimal 1 (-3))
  = Models.Valid (Models.mk_Decimal 0 (-2)).
Proof. vm_compute. reflexivity. Qed.

(** * Properties *)

(** ** Validated amounts *)

(** What validation lets through has two fractional digits and is not
    negative, so [Models.cents] is its value in hundredths. *)
Lemma amount_field_two_digits v w :
  Models.amount_field v = Models.Valid w →
  Models.exponent w = -2 ∧ 0 ≤ Models.cents w.
Proof.
  unfold Models.amount_field, Models.validate_amount, Models.quantize_001,
    Models.cents.
  destruct (Z.ltb_spec 0 (Models.coefficient v)) as [Hpos|]; [|discriminate].
  destruct (Z.leb_spec (Models.coefficient v) 0); [discriminate|].
  destruct (10 ^ Models.prec <=? _); [discriminate|].
  intros [= <-]. simpl. split; [reflexivity|].
  destruct (Z.leb_spec (-2) (Models.exponent v)).
  - apply Z.mul_nonneg_nonneg; [lia|]. apply Z.pow_nonneg. lia.
  - rewrite Z.sgn_pos, Z.mul_1_l by lia.
    assert (0 < 10 ^ (-2 - Models.exponent v)) as Hd by (apply Z.pow_pos_nonneg; lia).
    unfold Models.div_half_even.
    pose proof (Z.div_pos (Z.abs (Models.coefficient v)) _ ltac:(lia) Hd).
    destruct (_ || _); lia.
Qed.

(** ** The engine, statement by statement *)

Ltac unfold_conn :=
  unfold TransferCRUD.create_transfer, transaction,
    TransferCRUD.create_transfer_trace, TransferCRUD.create_transfer_run,
    TransferCRUD.create_transfer_body, mbind, conn_mbind, conn_bind, mret,
    conn_mret, conn_ret, raise, select_balance_for_update, select_id_for_update,
    update_balance_by, logged in *; simpl in *.

Section Engine.

Variables (d : database) (f t a : Z) (ds : option string).

Lemma run_sender_missing :
  users d !! f = None →
  TransferCRUD.create_transfer_run d f t a ds
  = (Raise (ValueError SenderNotFound),
     mk_connection d [SelectBalanceForUpdate f]).
Proof. intros H. unfold_conn. rewrite H. reflexivity. Qed.

Lemma run_insufficient s :
  users d !! f = Some s → balance s < a →
  TransferCRUD.create_transfer_run d f t a ds
  = (Raise (ValueError InsufficientFunds),
     mk_connection d [SelectBalanceForUpdate f]).
Proof.
  intros H Hlt. unfold_conn. rewrite H. simpl.
  apply Z.ltb_lt in Hlt. rewrite Hlt. reflexivity.
Qed.

Lemma run_receiver_missing s :
  users d !! f = Some s → a ≤ balance s → users d !! t = None →
  TransferCRUD.create_transfer_run d f t a ds
  = (Raise (ValueError ReceiverNotFound),
     mk_connection d [SelectBalanceForUpdate f; SelectIdForUpdate t]).
Proof.
  intros H Hle Ht. unfold_conn. rewrite H. simpl.
  apply Z.ltb_ge in Hle. rewrite Hle. simpl. rewrite Ht. reflexivity.
Qed.

Lemma run_both s r :
  users d !! f = Some s → a ≤ balance s → users d !! t = Some r →
  TransferCRUD.create_transfer_run d f t a ds
  = match store_balance (balance s - a) with
    | Raise e => (Raise e, mk_connection d (take 3 (transfer_statements f t a)))
    | Return v =>
        let r1 := if decide (f = t) then mk_user_row (username s) v else r in
        match store_balance (balance r1 + a) with
        | Raise e =>
            (Raise e, mk_connection (with_balance d f s v)
                        (take 4 (transfer_statements f t a)))
        | Return v1 =>
            insert_transfer f t a ds
              (mk_connection (with_balance (with_balance d f s v) t r1 v1)
                 (take 4 (transfer_statements f t a)))
        end
    end.
Proof.
  intros Hf Hle Ht. unfold_conn. rewrite Hf. simpl.
  apply Z.ltb_ge in Hle. rewrite Hle. simpl. rewrite Ht. simpl.
  rewrite Hf. replace (balance s + - a) with (balance s - a) by lia.
  destruct (store_balance (balance s - a)) as [v|e]; simpl; [|reflexivity].
  rewrite lookup_insert. destruct (decide (f = t)) as [Heq|Hne]; simpl.
  - destruct (store_balance (v + a)) as [v1|e1]; simpl; [|reflexivity].
    destruct (insert_transfer _ _ _ _ _) as [[row|e2] c2]; reflexivity.
  - rewrite Ht.
    destruct (store_balance (balance r + a)) as [v1|e1]; simpl; [|reflexivity].
    destruct (insert_transfer _ _ _ _ _) as [[row|e2] c2]; reflexivity.
Qed.

Lemma store_balance_Return v w :
  store_balance v = Return w → w = v ∧ 0 ≤ v < NUMERIC_15_2_LIMIT.
Proof.
  unfold store_balance.
  destruct (NUMERIC_15_2_LIMIT <=? Z.abs v) eqn:E1; [discriminate|].
  destruct (v <? 0) eqn:E2; [discriminate|].
  intros [= <-]. apply Z.leb_gt in E1. apply Z.ltb_ge in E2. lia.
Qed.

Lemma store_balance_Raise v e :
  store_balance v = Raise e →
  (e = CheckViolationError ∨ e = NumericValueOutOfRangeError)
  ∧ (v < 0 ∨ NUMERIC_15_2_LIMIT ≤ v).
Proof.
  unfold store_balance.
  destruct (NUMERIC_15_2_LIMIT <=? Z.abs v) eqn:E1.
  - intros [= <-]. apply Z.leb_le in E1. split; [auto | lia].
  - destruct (v <? 0) eqn:E2; [|discriminate].
    intros [= <-]. apply Z.ltb_lt in E2. auto.
Qed.

Lemma store_balance_valid v :
  0 ≤ v < NUMERIC_15_2_LIMIT → store_balance v = Return v.
Proof.
  intros Hv. unfold store_balance.
  destruct (NUMERIC_15_2_LIMIT <=? Z.abs v) eqn:E1.
  { apply Z.leb_le in E1. lia. }
  destruct (v <? 0) eqn:E2; [|reflexivity].
  apply Z.ltb_lt in E2. lia.
Qed.

(** Every call goes one of the five ways of [transfer_run]. *)
Lemma create_transfer_run_spec :
  transfer_run d f t a ds (TransferCRUD.create_transfer_run d f t a ds).
Proof.
  destruct (users d !! f) as [s|] eqn:Hf.
  2:{ rewrite run_sender_missing by done. by constructor. }
  destruct (Z.lt_ge_cases (balance s) a) as [Hlt|Hle].
  { rewrite (run_insufficient s) by done. by econstructor. }
  destruct (users d !! t) as [r|] eqn:Ht.
  2:{ rewrite (run_receiver_missing s) by done. by econstructor. }
  rewrite (run_both s r) by done.
  destruct (store_balance (balance s - a)) as [v|e] eqn:E1.
  2:{ apply store_balance_Raise in E1 as [He _].
      eapply (run_refused_by_store _ _ _ _ _ s r e _ 3%nat); eauto. }
  apply store_balance_Return in E1 as [-> Hv]. simpl.
  destruct (store_balance _) as [v1|e] eqn:E2 in |- *.
  2:{ apply store_balance_Raise in E2 as [He _].
      eapply (run_refused_by_store _ _ _ _ _ s r e _ 4%nat); eauto. }
  apply store_balance_Return in E2 as [-> Hv1].
  unfold insert_transfer. simpl.
  destruct (NUMERIC_15_2_LIMIT <=? Z.abs a) eqn:E3.
  { eapply (run_refused_by_store _ _ _ _ _ s r _ _ 5%nat); eauto; lia. }
  destruct (a <=? 0) eqn:E4; simpl.
  { eapply (run_refused_by_store _ _ _ _ _ s r _ _ 5%nat); eauto; lia. }
  destruct (f =? t) eqn:E5.
  { eapply (run_refused_by_store _ _ _ _ _ s r _ _ 5%nat); eauto; lia. }
  apply Z.leb_gt in E4. apply Z.eqb_neq in E5.
  destruct (decide (f = t)) as [|_]; [done|].
  by apply (run_committed _ _ _ _ _ s r).
Qed.

End Engine.

Lemma create_transfer_unfold d f t a ds :
  TransferCRUD.create_transfer d f t a ds
  = match TransferCRUD.create_transfer_run d f t a ds with
    | (Return row, c) => (Return row, conn_db c)
    | (Raise e, c) =>
        (Raise e, mk_database (users d) (transfers d) (transfers_id_seq (conn_db c)))
    end.
Proof. reflexivity. Qed.

(** A call that raises leaves both tables as they were. *)
Lemma create_transfer_rollback d f t a ds e :
  fst (TransferCRUD.create_transfer d f t a ds) = Raise e →
  users (snd (TransferCRUD.create_transfer d f t a ds)) = users d
  ∧ transfers (snd (TransferCRUD.create_transfer d f t a ds)) = transfers d.
Proof.
  rewrite create_transfer_unfold.
  destruct (TransferCRUD.create_transfer_run d f t a ds) as [[row|e'] c]; simpl.
  - discriminate.
  - auto.
Qed.

(** A call that returns has committed a transfer between two distinct rows. *)
Lemma create_transfer_commit d f t a ds row :
  fst (TransferCRUD.create_transfer d f t a ds) = Return row →
  ∃ s r, users d !! f = Some s ∧ users d !! t = Some r ∧ f ≠ t ∧ 0 < a
         ∧ a ≤ balance s ∧ balance r + a < NUMERIC_15_2_LIMIT
         ∧ row = mk_transfer_row (transfers_id_seq d + 1) f t a ds
         ∧ snd (TransferCRUD.create_transfer d f t a ds) = committed d f t a ds s r.
Proof.
  rewrite create_transfer_unfold.
  destruct (create_transfer_run_spec d f t a ds); simpl; try discriminate.
  intros [= <-]. exists s, r. repeat split; auto; lia.
Qed.

(** ** The sum of the balances *)

Lemma total_balance_with_balance d k r v :
  users d !! k = Some r →
  total_balance (with_balance d k r v) = total_balance d - balance r + v.
Proof.
  intros Hk. unfold total_balance, with_balance. simpl.
  rewrite (map_fold_delete_L _ _ k r (users d)); [|intros; lia|done].
  rewrite <- insert_delete_eq.
  rewrite map_fold_insert_L; [simpl; lia|intros; lia|apply lookup_delete_eq].
Qed.

Lemma total_balance_committed d f t a ds s r :
  users d !! f = Some s → users d !! t = Some r → f ≠ t →
  total_balance (committed d f t a ds s r) = total_balance d.
Proof.
  intros Hf Ht Hne.
  pose proof (total_balance_with_balance d f s (balance s - a) Hf) as H1.
  pose proof (total_balance_with_balance (with_balance d f s (balance s - a)) t r
                (balance r + a)) as H2.
  unfold total_balance, committed, with_balance in *. simpl in *.
  rewrite H2; [|by rewrite lookup_insert_ne]. rewrite H1. lia.
Qed.

(** ** Lock order *)

(** C1, as the code has it: the lock on the source row is requested first, by
    the statement that also reads the source balance, and the lock on the
    destination row is requested second, only once the source has been found
    with sufficient funds.  The order of the two requests is the direction of
    the transfer. *)
Theorem lock_order_is_transfer_direction d f t a ds :
  lock_order (TransferCRUD.create_transfer_trace d f t a ds)
  = match users d !! f with
    | None => [f]
    | Some s => if balance s <? a then [f] else [f; t]
    end
  ∧ head (TransferCRUD.create_transfer_trace d f t a ds)
    = Some (SelectBalanceForUpdate f).
Proof.
  unfold TransferCRUD.create_transfer_trace.
  destruct (create_transfer_run_spec d f t a ds) as
    [Hf|s Hf Hlt|s Hf Hle Ht|s r e c n Hf Hle Ht He Hn Hlog _|s r Hf Hle Ht]; simpl;
    rewrite Hf.
  - done.
  - apply Z.ltb_lt in Hlt. by rewrite Hlt.
  - apply Z.ltb_ge in Hle. by rewrite Hle.
  - apply Z.ltb_ge in Hle. rewrite Hle, Hlog.
    destruct n as [|[|[|[|[|n]]]]]; try lia; simpl; rewrite ?take_nil; done.
  - apply Z.ltb_ge in Hle. by rewrite Hle.
Qed.

(** C1, as stated, fails: the transfers 1 → 2 and 2 → 1 request the same two
    locks in opposite orders, and the source balance is read by the first
    statement, before the lock on the destination row is requested. *)
Lemma locking_depends_on_direction :
  ¬ direction_independent_locking db0 1 2 50000
  ∧ TransferCRUD.create_transfer_trace db0 1 2 50000 None !! 0%nat
    = Some (SelectBalanceForUpdate 1)
  ∧ TransferCRUD.create_transfer_trace db0 1 2 50000 None !! 1%nat
    = Some (SelectIdForUpdate 2).
Proof.
  split; [|split; vm_compute; reflexivity].
  unfold direction_independent_locking. vm_compute. discriminate.
Qed.

(** ** Order of the checks *)

(** C2, as the code has it: the engine checks that the source exists, then
    that its balance covers the amount, then that the destination exists, and
    raises a [ValueError] with a message of its own for each; it has no other
    check, so once the three have passed it raises no [ValueError]. *)
Theorem checks_in_engine_order d f t a ds :
  match users d !! f with
  | None =>
      fst (TransferCRUD.create_transfer d f t a ds)
      = Raise (ValueError SenderNotFound)
  | Some s =>
      if balance s <? a then
        fst (TransferCRUD.create_transfer d f t a ds)
        = Raise (ValueError InsufficientFunds)
      else
        match users d !! t with
        | None =>
            fst (TransferCRUD.create_transfer d f t a ds)
            = Raise (ValueError ReceiverNotFound)
        | Some _ =>
            ∀ m, fst (TransferCRUD.create_transfer d f t a ds)
                 ≠ Raise (ValueError m)
        end
  end
  ∧ (∀ m m', kind_of (ValueError m) = kind_of (ValueError m') → m = m').
Proof.
  split; [|intros [] []; simpl; congruence].
  rewrite create_transfer_unfold.
  destruct (create_transfer_run_spec d f t a ds) as
    [Hf|s Hf Hlt|s Hf Hle Ht|s r e c n Hf Hle Ht He Hn Hlog _|s r Hf Hle Ht]; simpl;
    rewrite Hf; try done.
  - apply Z.ltb_lt in Hlt. by rewrite Hlt.
  - apply Z.ltb_ge in Hle. by rewrite Hle, Ht.
  - apply Z.ltb_ge in Hle. rewrite Hle, Ht. intros m. destruct He; congruence.
  - apply Z.ltb_ge in Hle. by rewrite Hle, Ht.
Qed.

(** C2, as stated, fails: user 3 does not exist and the balance of user 1 does
    not cover the amount; the design reports the missing destination, the
    engine reports the insufficient funds. *)
Lemma insufficient_funds_before_missing_destination :
  users db0 !! 3 = None
  ∧ (balance <$> users db0 !! 1) = Some 100000
  ∧ documented_precondition_failure db0 1 3 500000 = Some DestinationNotFoundError
  ∧ fst (TransferCRUD.create_transfer db0 1 3 500000 None)
    = Raise (ValueError InsufficientFunds)
  ∧ ¬ reports db0 1 3 500000 DestinationNotFoundError.
Proof.
  repeat split; try (vm_compute; reflexivity).
  intros (e & He & Hk). vm_compute in He. injection He as <-. discriminate.
Qed.

(** ** Failure leaves no trace *)

(** C3: a call that fails, whatever the error, leaves the [users] and the
    [transfers] tables as they were before the call; when the error is one of
    the engine's own checks, no statement that writes was even issued. *)
Theorem failed_transfer_changes_nothing d f t a ds e :
  fst (TransferCRUD.create_transfer d f t a ds) = Raise e →
  users (snd (TransferCRUD.create_transfer d f t a ds)) = users d
  ∧ transfers (snd (TransferCRUD.create_transfer d f t a ds)) = transfers d
  ∧ (∀ m, e = ValueError m →
          writes (TransferCRUD.create_transfer_trace d f t a ds) = []).
Proof.
  intros He. destruct (create_transfer_rollback d f t a ds e He) as [Hu Ht].
  split; [done|split; [done|]]. intros m ->.
  revert He. rewrite create_transfer_unfold.
  unfold TransferCRUD.create_transfer_trace.
  destruct (create_transfer_run_spec d f t a ds) as
    [?|? ? ?|? ? ? ?|s r e c n _ _ _ He' _ _ _|]; simpl; try done.
  intros [= ->]. destruct He'; discriminate.
Qed.

Lemma failed_transfer_changes_nothing_witness :
  users (snd (TransferCRUD.create_transfer db0 1 2 500000 None)) = users db0
  ∧ transfers (snd (TransferCRUD.create_transfer db0 1 2 500000 None))
    = transfers db0
  ∧ (∀ m, ValueError InsufficientFunds = ValueError m →
          writes (TransferCRUD.create_transfer_trace db0 1 2 500000 None) = []).
Proof.
  apply (failed_transfer_changes_nothing db0 1 2 500000 None
           (ValueError InsufficientFunds)).
  vm_compute. reflexivity.
Defined.

(** ** Conservation *)

Lemma users_committed d f t a ds s r :
  users d !! f = Some s → users d !! t = Some r → f ≠ t →
  users (committed d f t a ds s r) = move (users d) (f, t, a).
Proof.
  intros Hf Ht Hne. unfold committed, move. simpl.
  apply map_eq. intros k.
  rewrite !lookup_insert, !lookup_alter.
  repeat case_decide; subst; try congruence.
  - rewrite Ht. reflexivity.
  - rewrite Hf. unfold add_to_balance. simpl. repeat f_equal; lia.
Qed.

(** C5: a sequence of transfers that all succeed leaves the sum of all
    balances as it was; each of them takes its amount from the balance of the
    source and adds the same amount to the balance of the destination, and
    changes no other balance. *)
Theorem successful_transfers_conserve_total d l d' :
  run_transfers d l = Some d' →
  total_balance d' = total_balance d
  ∧ users d' = foldl move (users d) l.
Proof.
  revert d. induction l as [|[[f t] a] l IH]; intros d; simpl.
  - intros [= <-]. done.
  - destruct (TransferCRUD.create_transfer d f t a None) as [[row|e] d1] eqn:E;
      [|discriminate].
    intros Hrun. apply IH in Hrun as [Htot Hus].
    destruct (create_transfer_commit d f t a None row) as
      (s & r & Hf & Ht & Hne & _ & _ & _ & _ & Hd1); [by rewrite E|].
    rewrite E in Hd1. simpl in Hd1. subst d1.
    rewrite Htot, Hus.
    rewrite (total_balance_committed d f t a None s r) by done.
    by rewrite (users_committed d f t a None s r).
Qed.

Lemma successful_transfers_conserve_total_witness :
  total_balance (mk_database
                   (<[1 := mk_user_row "john" 80000]>
                      (<[2 := mk_user_row "mary" 120000]> ∅))
                   [mk_transfer_row 1 1 2 50000 None;
                    mk_transfer_row 2 2 1 30000 None] 2)
  = total_balance db0
  ∧ users (mk_database
             (<[1 := mk_user_row "john" 80000]>
                (<[2 := mk_user_row "mary" 120000]> ∅))
             [mk_transfer_row 1 1 2 50000 None;
              mk_transfer_row 2 2 1 30000 None] 2)
    = foldl move (users db0) [(1, 2, 50000); (2, 1, 30000)].
Proof.
  apply (successful_transfers_conserve_total db0 [(1, 2, 50000); (2, 1, 30000)]).
  vm_compute. reflexivity.
Defined.

(** ** What a call that does not return has done *)

(** The engine returns or raises; it returns only for a positive amount
    between two distinct rows. *)
Lemma create_transfer_raises d f t a ds :
  f = t ∨ a ≤ 0 →
  ∃ e, fst (TransferCRUD.create_transfer d f t a ds) = Raise e.
Proof.
  intros Hbad.
  destruct (fst (TransferCRUD.create_transfer d f t a ds)) as [row|e] eqn:E;
    [|by exists e].
  apply create_transfer_commit in E as (s & r & _ & _ & Hne & Hpos & _).
  destruct Hbad; [done|lia].
Qed.

Lemma create_transfer_no_self_transfer d f t a ds :
  no_self_transfer d →
  no_self_transfer (snd (TransferCRUD.create_transfer d f t a ds)).
Proof.
  intros Hd. unfold no_self_transfer.
  destruct (fst (TransferCRUD.create_transfer d f t a ds)) as [row|e] eqn:E.
  - apply create_transfer_commit in E as (s & r & _ & _ & Hne & _ & _ & _ & _ & ->).
    simpl. apply Forall_app. split; [done|]. by repeat constructor.
  - apply create_transfer_rollback in E as [_ ->]. done.
Qed.

(** The route ends with the tables it was given or with those the engine
    left. *)
Lemma route_create_transfer_tables d req u :
  snd (Routes.create_transfer d req u) = d
  ∨ ∃ f t, snd (Routes.create_transfer d req u)
           = snd (TransferCRUD.create_transfer d f t (Models.amount req)
                    (Models.description req)).
Proof.
  unfold Routes.create_transfer.
  destruct (String.eqb _ _); [by left|].
  destruct (UserCRUD.get_user_by_username _ _) as [recipient|]; [|by left].
  right. exists (Models.User_id u), (Models.User_id recipient).
  destruct (TransferCRUD.create_transfer _ _ _ _ _) as [[row|[m| |]] d']; reflexivity.
Qed.

(** ** Self-transfer *)

(** C6: a request to transfer to oneself is answered with the self-transfer
    error, whatever the amount, and changes nothing; the engine called with
    the same row on both sides never returns a transfer either; and no call,
    of the route or of the engine, adds a record whose source is its
    destination to the ledger. *)
Theorem self_transfer_rejected d A amt ds req u :
  no_self_transfer d →
  Routes.create_transfer d
    (Models.mk_TransferRequest (Models.User_username A) amt ds) A
  = (Routes.HTTPException 400 Routes.SelfTransfer, d)
  ∧ (∃ e, fst (TransferCRUD.create_transfer d (Models.User_id A)
                 (Models.User_id A) amt ds) = Raise e)
  ∧ no_self_transfer (snd (Routes.create_transfer d req u))
  ∧ (∀ f t a ds',
       no_self_transfer (snd (TransferCRUD.create_transfer d f t a ds'))).
Proof.
  intros Hd. repeat split.
  - unfold Routes.create_transfer. simpl. by rewrite String.eqb_refl.
  - apply create_transfer_raises. by left.
  - destruct (route_create_transfer_tables d req u) as [->|(f & t & ->)]; [done|].
    by apply create_transfer_no_self_transfer.
  - intros. by apply create_transfer_no_self_transfer.
Qed.

Lemma self_transfer_rejected_witness :
  Routes.create_transfer db1 (Models.mk_TransferRequest "john" 1000 None) john
  = (Routes.HTTPException 400 Routes.SelfTransfer, db1)
  ∧ (∃ e, fst (TransferCRUD.create_transfer db1 1 1 1000 None) = Raise e)
  ∧ no_self_transfer
      (snd (Routes.create_transfer db1
              (Models.mk_TransferRequest "mary" 1000 None) john))
  ∧ (∀ f t a ds',
       no_self_transfer (snd (TransferCRUD.create_transfer db1 f t a ds'))).
Proof.
  apply (self_transfer_rejected db1 john 1000 None
           (Models.mk_TransferRequest "mary" 1000 None) john).
  unfold no_self_transfer. simpl. repeat constructor. simpl. lia.
Defined.

(** ** Amounts that are not positive *)

(** C8, as the code has it: the engine has no check of the amount.  A call
    with an amount that is not positive never returns a transfer and leaves
    both tables as they were, but it fails on whichever comes first of the
    engine's three checks and the constraints of the schema; when both rows
    exist with balances that are not negative, it is the store that refuses,
    after the engine has issued the update of the source balance. *)
Theorem non_positive_amount_fails d f t a ds :
  a ≤ 0 →
  ∃ e, fst (TransferCRUD.create_transfer d f t a ds) = Raise e
       ∧ kind_of e ≠ Some InvalidAmountError
       ∧ users (snd (TransferCRUD.create_transfer d f t a ds)) = users d
       ∧ transfers (snd (TransferCRUD.create_transfer d f t a ds)) = transfers d
       ∧ (∀ s r, users d !! f = Some s → users d !! t = Some r → 0 ≤ balance s →
            (e = CheckViolationError ∨ e = NumericValueOutOfRangeError)
            ∧ head (writes (TransferCRUD.create_transfer_trace d f t a ds))
              = Some (UpdateBalanceBy f (- a))).
Proof.
  intros Ha.
  destruct (create_transfer_raises d f t a ds) as [e He]; [by right|].
  exists e. split; [done|]. split; [by destruct e as [[]| |]|].
  destruct (create_transfer_rollback d f t a ds e He) as [Hu Ht].
  split; [done|split; [done|]].
  intros s r Hf Htt Hs. revert He. rewrite create_transfer_unfold.
  unfold TransferCRUD.create_transfer_trace.
  destruct (create_transfer_run_spec d f t a ds) as
    [Hf'|s' Hf' Hlt|s' Hf' Hle Ht'|s' r' e' c n _ _ _ He' Hn Hlog _|]; simpl;
    try (intros; simplify_eq; lia).
  intros [= ->]. split; [done|]. rewrite Hlog.
  destruct n as [|[|[|n]]]; try lia. reflexivity.
Qed.

Lemma non_positive_amount_fails_witness :
  ∃ e, fst (TransferCRUD.create_transfer db0 1 2 (-500) None) = Raise e
       ∧ kind_of e ≠ Some InvalidAmountError
       ∧ users (snd (TransferCRUD.create_transfer db0 1 2 (-500) None)) = users db0
       ∧ transfers (snd (TransferCRUD.create_transfer db0 1 2 (-500) None))
         = transfers db0
       ∧ (∀ s r, users db0 !! 1 = Some s → users db0 !! 2 = Some r → 0 ≤ balance s →
            (e = CheckViolationError ∨ e = NumericValueOutOfRangeError)
            ∧ head (writes (TransferCRUD.create_transfer_trace db0 1 2 (-500) None))
              = Some (UpdateBalanceBy 1 (- -500))).
Proof. apply (non_positive_amount_fails db0 1 2 (-500) None). lia. Defined.

(** C8, as stated, fails: with the amount -5.00 the engine raises no error of
    its own; it updates both balances and is stopped by the CHECK on the
    inserted row. *)
Lemma negative_amount_reaches_the_store :
  -500 ≤ 0
  ∧ fst (TransferCRUD.create_transfer db0 1 2 (-500) None)
    = Raise CheckViolationError
  ∧ writes (TransferCRUD.create_transfer_trace db0 1 2 (-500) None)
    = [UpdateBalanceBy 1 500; UpdateBalanceBy 2 (-500); InsertTransfer 1 2 (-500)]
  ∧ ¬ fails_before_writing db0 1 2 (-500) InvalidAmountError.
Proof.
  repeat split; try lia; try (vm_compute; reflexivity).
  intros [(e & He & Hk) _]. vm_compute in He. injection He as <-. discriminate.
Qed.

(** ** Balances never go below zero *)

Lemma non_negative_with_balance d k r v :
  non_negative d → 0 ≤ v → non_negative (with_balance d k r v).
Proof. intros Hd Hv. unfold non_negative. simpl. by apply map_Forall_insert_2. Qed.

Lemma non_negative_users d d' :
  users d' = users d → non_negative d → non_negative d'.
Proof. unfold non_negative. by intros ->. Qed.

Lemma create_transfer_non_negative d f t a ds :
  non_negative d →
  non_negative (snd (TransferCRUD.create_transfer d f t a ds)).
Proof.
  intros Hd.
  destruct (fst (TransferCRUD.create_transfer d f t a ds)) as [row|e] eqn:E.
  - apply create_transfer_commit in E as
      (s & r & Hf & Ht & Hne & Hpos & Hle & _ & _ & ->).
    pose proof (Hd _ _ Ht) as Hr. simpl in Hr.
    apply (non_negative_with_balance (with_balance d f s (balance s - a)) t r);
      [|lia].
    apply non_negative_with_balance; [done|lia].
  - apply create_transfer_rollback in E as [Hu _].
    by apply (non_negative_users d).
Qed.

Lemma update_balance_unfold d k v :
  UserCRUD.update_balance d k v
  = match users d !! k with
    | Some r =>
        if 0 <=? balance r then
          match store_balance v with
          | Return w => (Return true, with_balance d k r w)
          | Raise e => (Raise e, d)
          end
        else (Return false, d)
    | None => (Return false, d)
    end.
Proof.
  unfold UserCRUD.update_balance, UserCRUD.update_balance_guard.
  destruct (users d !! k) as [r|]; [|reflexivity].
  destruct (0 <=? balance r); reflexivity.
Qed.

Lemma update_balance_non_negative d k v :
  non_negative d → non_negative (snd (UserCRUD.update_balance d k v)).
Proof.
  intros Hd. rewrite update_balance_unfold.
  destruct (users d !! k) as [r|]; [|done].
  destruct (0 <=? balance r); [|done].
  destruct (store_balance v) as [w|e] eqn:E; [|done].
  apply store_balance_Return in E as [-> Hv]. simpl.
  apply non_negative_with_balance; [done|lia].
Qed.

Lemma deposit_balance_tables d req u :
  snd (Routes.deposit_balance d req u) = d
  ∨ ∃ v, snd (Routes.deposit_balance d req u)
         = snd (UserCRUD.update_balance d (Models.User_id u) v).
Proof.
  unfold Routes.deposit_balance.
  destruct (UserCRUD.get_balance _ _) as [b|]; [|by left].
  right. exists (b + Models.deposit_amount req).
  destruct (UserCRUD.update_balance _ _ _) as [[[]|e] d']; reflexivity.
Qed.

Lemma withdraw_balance_tables d req u :
  snd (Routes.withdraw_balance d req u) = d
  ∨ ∃ v, snd (Routes.withdraw_balance d req u)
         = snd (UserCRUD.update_balance d (Models.User_id u) v).
Proof.
  unfold Routes.withdraw_balance.
  destruct (UserCRUD.get_balance _ _) as [b|]; [|by left].
  destruct (b <? _); [by left|].
  right. exists (b - Models.withdraw_amount req).
  destruct (UserCRUD.update_balance _ _ _) as [[[]|e] d']; reflexivity.
Qed.

(** C4: from tables in which no balance is negative, a transfer, a deposit or
    a withdrawal leads to tables in which no balance is negative; and one that
    would take a balance below zero is refused and leaves the tables as they
    were: a transfer or a withdrawal of more than the balance holds, a
    transfer of a negative amount greater than what the destination holds, a
    deposit of a negative amount greater than the balance. *)
Theorem balances_stay_non_negative d f t a ds u x :
  non_negative d →
  non_negative (snd (TransferCRUD.create_transfer d f t a ds))
  ∧ non_negative
      (snd (Routes.create_transfer d (Models.mk_TransferRequest x a ds) u))
  ∧ non_negative (snd (Routes.deposit_balance d (Models.mk_DepositRequest a) u))
  ∧ non_negative (snd (Routes.withdraw_balance d (Models.mk_WithdrawRequest a) u))
  ∧ (∀ s, users d !! f = Some s → balance s - a < 0 →
       fst (TransferCRUD.create_transfer d f t a ds)
       = Raise (ValueError InsufficientFunds)
       ∧ users (snd (TransferCRUD.create_transfer d f t a ds)) = users d)
  ∧ (∀ r, users d !! t = Some r → f ≠ t → balance r + a < 0 →
       ∃ e, fst (TransferCRUD.create_transfer d f t a ds) = Raise e
            ∧ users (snd (TransferCRUD.create_transfer d f t a ds)) = users d)
  ∧ (∀ b, UserCRUD.get_balance d (Models.User_id u) = Some b → b - a < 0 →
       Routes.withdraw_balance d (Models.mk_WithdrawRequest a) u
       = (Routes.HTTPException 400 Routes.InsufficientBalance, d))
  ∧ (∀ b, UserCRUD.get_balance d (Models.User_id u) = Some b → b + a < 0 →
       ∃ e, Routes.deposit_balance d (Models.mk_DepositRequest a) u
            = (Routes.HTTPException 500 (Routes.DepositFailed e), d)).
Proof.
  intros Hd. repeat split.
  - by apply create_transfer_non_negative.
  - destruct (route_create_transfer_tables d (Models.mk_TransferRequest x a ds) u)
      as [->|(f' & t' & ->)]; [done|].
    by apply create_transfer_non_negative.
  - destruct (deposit_balance_tables d (Models.mk_DepositRequest a) u)
      as [->|(v & ->)]; [done|].
    by apply update_balance_non_negative.
  - destruct (withdraw_balance_tables d (Models.mk_WithdrawRequest a) u)
      as [->|(v & ->)]; [done|].
    by apply update_balance_non_negative.
  - rewrite create_transfer_unfold, (run_insufficient d f t a ds s) by (done || lia).
    reflexivity.
  - rewrite create_transfer_unfold, (run_insufficient d f t a ds s) by (done || lia).
    reflexivity.
  - intros r Ht Hne Hneg.
    destruct (fst (TransferCRUD.create_transfer d f t a ds)) as [row|e] eqn:E.
    + apply create_transfer_commit in E as (s & r' & _ & Ht' & _ & Hpos & _).
      pose proof (Hd _ _ Ht) as Hr. simpl in Hr. lia.
    + exists e. split; [done|]. by apply create_transfer_rollback in E as [-> _].
  - intros b Hb Hneg. unfold Routes.withdraw_balance. rewrite Hb. simpl.
    assert ((b <? a) = true) as -> by (apply Z.ltb_lt; lia). reflexivity.
  - intros b Hb Hneg. unfold Routes.deposit_balance. rewrite Hb. simpl.
    rewrite update_balance_unfold.
    unfold UserCRUD.get_balance in Hb.
    destruct (users d !! Models.User_id u) as [r|] eqn:Hr; [|done].
    simpl in Hb. injection Hb as <-.
    pose proof (Hd _ _ Hr) as Hr0. simpl in Hr0.
    assert ((0 <=? balance r) = true) as -> by (apply Z.leb_le; lia).
    destruct (store_balance (balance r + a)) as [w|e] eqn:E.
    + apply store_balance_Return in E. lia.
    + by exists e.
Qed.

Lemma non_negative_db0 : non_negative db0.
Proof. apply (bool_decide_unpack _). vm_compute. exact I. Qed.

Lemma balances_stay_non_negative_witness :
  non_negative (snd (TransferCRUD.create_transfer db0 1 2 500000 None))
  ∧ non_negative
      (snd (Routes.create_transfer db0
              (Models.mk_TransferRequest "mary" 500000 None) john))
  ∧ non_negative
      (snd (Routes.deposit_balance db0 (Models.mk_DepositRequest 500000) john))
  ∧ non_negative
      (snd (Routes.withdraw_balance db0 (Models.mk_WithdrawRequest 500000) john))
  ∧ (∀ s, users db0 !! 1 = Some s → balance s - 500000 < 0 →
       fst (TransferCRUD.create_transfer db0 1 2 500000 None)
       = Raise (ValueError InsufficientFunds)
       ∧ users (snd (TransferCRUD.create_transfer db0 1 2 500000 None))
         = users db0)
  ∧ (∀ r, users db0 !! 2 = Some r → 1 ≠ 2 → balance r + 500000 < 0 →
       ∃ e, fst (TransferCRUD.create_transfer db0 1 2 500000 None) = Raise e
            ∧ users (snd (TransferCRUD.create_transfer db0 1 2 500000 None))
              = users db0)
  ∧ (∀ b, UserCRUD.get_balance db0 (Models.User_id john) = Some b →
       b - 500000 < 0 →
       Routes.withdraw_balance db0 (Models.mk_WithdrawRequest 500000) john
       = (Routes.HTTPException 400 Routes.InsufficientBalance, db0))
  ∧ (∀ b, UserCRUD.get_balance db0 (Models.User_id john) = Some b →
       b + 500000 < 0 →
       ∃ e, Routes.deposit_balance db0 (Models.mk_DepositRequest 500000) john
            = (Routes.HTTPException 500 (Routes.DepositFailed e), db0)).
Proof.
  apply (balances_stay_non_negative db0 1 2 500000 None john "mary").
  apply (bool_decide_unpack _). vm_compute. exact I.
Defined.

(** ** Withdrawal *)

(** C9: for an account that exists, with the stored balance [b] and the amount
    [amt] withdrawn (the delta is [- amt]): if [b - amt] is negative the route
    answers with the insufficient-funds error and the tables are untouched;
    otherwise it writes [b - amt] as the balance of that account and returns
    it. *)
Theorem withdraw_adjusts_balance d u r amt :
  users d !! Models.User_id u = Some r →
  0 ≤ balance r →
  balance r - amt < NUMERIC_15_2_LIMIT →
  Routes.withdraw_balance d (Models.mk_WithdrawRequest amt) u
  = if balance r - amt <? 0 then
      (Routes.HTTPException 400 Routes.InsufficientBalance, d)
    else
      (Routes.Ok (Models.mk_MessageResponse (Some (balance r - amt))),
       with_balance d (Models.User_id u) r (balance r - amt)).
Proof.
  intros Hr Hb Hlim. unfold Routes.withdraw_balance, UserCRUD.get_balance.
  rewrite Hr. simpl.
  destruct (balance r - amt <? 0) eqn:E.
  - apply Z.ltb_lt in E.
    assert ((balance r <? amt) = true) as -> by (apply Z.ltb_lt; lia).
    reflexivity.
  - apply Z.ltb_ge in E.
    assert ((balance r <? amt) = false) as -> by (apply Z.ltb_ge; lia).
    rewrite update_balance_unfold, Hr.
    assert ((0 <=? balance r) = true) as -> by (apply Z.leb_le; lia).
    by rewrite store_balance_valid.
Qed.

Lemma withdraw_adjusts_balance_witness :
  Routes.withdraw_balance db0 (Models.mk_WithdrawRequest 1000) john
  = if balance (mk_user_row "john" 100000) - 1000 <? 0 then
      (Routes.HTTPException 400 Routes.InsufficientBalance, db0)
    else
      (Routes.Ok (Models.mk_MessageResponse
                    (Some (balance (mk_user_row "john" 100000) - 1000))),
       with_balance db0 (Models.User_id john) (mk_user_row "john" 100000)
         (balance (mk_user_row "john" 100000) - 1000)).
Proof.
  apply (withdraw_adjusts_balance db0 john (mk_user_row "john" 100000) 1000).
  - vm_compute. reflexivity.
  - simpl. lia.
  - vm_compute. reflexivity.
Defined.

(** ** The guard of [update_balance] *)

(** C10, as the code has it, for a new balance within the range of the column
    type: [update_balance] returns true exactly when the row exists, its
    stored balance is not negative and the new balance is not negative; it
    returns false exactly when no row passes the guard; the guard does not
    look at the new balance, so a negative one passes it for a row whose
    stored balance is not negative, and it is the CHECK of the column that
    refuses it, by an exception and without a write. *)
Theorem update_balance_success d k v :
  Z.abs v < NUMERIC_15_2_LIMIT →
  (fst (UserCRUD.update_balance d k v) = Return true
   ↔ (∃ r, users d !! k = Some r ∧ 0 ≤ balance r) ∧ 0 ≤ v)
  ∧ (fst (UserCRUD.update_balance d k v) = Return false
     ↔ ¬ ∃ r, users d !! k = Some r ∧ 0 ≤ balance r)
  ∧ (∀ r, users d !! k = Some r → 0 ≤ balance r →
       UserCRUD.update_balance_guard d k = Some r
       ∧ UserCRUD.update_balance d k v
         = if v <? 0 then (Raise CheckViolationError, d)
           else (Return true, with_balance d k r v)).
Proof.
  intros Hv. rewrite update_balance_unfold.
  unfold UserCRUD.update_balance_guard, store_balance.
  assert ((NUMERIC_15_2_LIMIT <=? Z.abs v) = false) as -> by (apply Z.leb_gt; lia).
  destruct (users d !! k) as [r|] eqn:Hr; [destruct (Z.leb_spec 0 (balance r))|];
    [destruct (Z.ltb_spec v 0)|..]; simpl.
  - split; [split; [discriminate|intros [_ ?]; lia]|].
    split; [split; [discriminate|intros H'; destruct H'; eauto]|].
    by intros ? [= <-] _.
  - split; [split; [eauto|done]|].
    split; [split; [discriminate|intros H'; destruct H'; eauto]|].
    by intros ? [= <-] _.
  - split; [split; [discriminate|intros [(? & [= <-] & ?) _]; lia]|].
    split; [split; [intros _ (? & [= <-] & ?); lia|done]|].
    intros ? [= <-] ?. lia.
  - split; [split; [discriminate|by intros [(? & ? & _) _]]|].
    split; [split; [by intros _ (? & ? & _)|done]|].
    intros ? [=].
Qed.

Lemma update_balance_success_witness :
  (fst (UserCRUD.update_balance db0 1 (-500)) = Return true
   ↔ (∃ r, users db0 !! 1 = Some r ∧ 0 ≤ balance r) ∧ 0 ≤ -500)
  ∧ (fst (UserCRUD.update_balance db0 1 (-500)) = Return false
     ↔ ¬ ∃ r, users db0 !! 1 = Some r ∧ 0 ≤ balance r)
  ∧ (∀ r, users db0 !! 1 = Some r → 0 ≤ balance r →
       UserCRUD.update_balance_guard db0 1 = Some r
       ∧ UserCRUD.update_balance db0 1 (-500)
         = if -500 <? 0 then (Raise CheckViolationError, db0)
           else (Return true, with_balance db0 1 r (-500))).
Proof. apply (update_balance_success db0 1 (-500)). vm_compute. reflexivity. Defined.

(** C10, as stated, fails: user 1 exists with the balance 1000.00, and
    [update_balance] called with -5.00 does not return true: it raises the
    violation of the CHECK. *)
Lemma update_balance_negative_raises :
  (∃ r, users db0 !! 1 = Some r ∧ 0 ≤ balance r)
  ∧ UserCRUD.update_balance db0 1 (-500) = (Raise CheckViolationError, db0)
  ∧ ¬ reports_success_iff_guard db0 1 (-500).
Proof.
  assert (∃ r, users db0 !! 1 = Some r ∧ 0 ≤ balance r) as Hex.
  { exists (mk_user_row "john" 100000). split; [vm_compute; reflexivity|simpl; lia]. }
  split; [exact Hex|split].
  - vm_compute. reflexivity.
  - intros [_ H]. specialize (H Hex). vm_compute in H. discriminate.
Qed.

(** ** Amounts with more than two fractional digits *)

(** Rounding half to even is off by at most half of the divisor, and the
    quotient it gives is at most one above the truncated one. *)
Lemma div_half_even_bounds n m :
  0 ≤ n → 0 < m →
  2 * Z.abs (Models.div_half_even n m * m - n) ≤ m
  ∧ n / m ≤ Models.div_half_even n m ≤ n / m + 1.
Proof.
  intros Hn Hm. unfold Models.div_half_even.
  pose proof (Z.div_mod n m ltac:(lia)) as Hdiv.
  pose proof (Z.mod_pos_bound n m Hm) as Hmod.
  destruct ((m <? 2 * (n mod m)) || ((m =? 2 * (n mod m)) && Z.odd (n / m)))
    eqn:E.
  - apply orb_true_iff in E as [E|E].
    + apply Z.ltb_lt in E. split; lia.
    + apply andb_true_iff in E as [E _]. apply Z.eqb_eq in E. split; lia.
  - apply orb_false_iff in E as [E _]. apply Z.ltb_ge in E. split; lia.
Qed.

(** C7, as the code has it: a positive amount written with more than two
    fractional digits (and with no more digits than the precision of the
    decimal context) is accepted, and what is passed on is the amount rounded
    half to even to two fractional digits, at most half a hundredth away from
    the amount supplied. *)
Theorem long_amount_is_rounded v :
  0 < Models.coefficient v →
  more_than_two_fractional_digits v →
  Models.coefficient v < 10 ^ Models.prec →
  Models.amount_field v
  = Models.Valid
      (Models.mk_Decimal
         (Models.div_half_even (Models.coefficient v) (10 ^ (-2 - Models.exponent v)))
         (-2))
  ∧ 2 * Z.abs (Models.div_half_even (Models.coefficient v)
                 (10 ^ (-2 - Models.exponent v))
               * 10 ^ (-2 - Models.exponent v) - Models.coefficient v)
    ≤ 10 ^ (-2 - Models.exponent v).
Proof.
  unfold more_than_two_fractional_digits. intros Hpos Hexp Hprec.
  set (k := -2 - Models.exponent v).
  assert (10 ≤ 10 ^ k) as Hk.
  { change 10 with (10 ^ 1) at 1. apply Z.pow_le_mono_r; lia. }
  destruct (div_half_even_bounds (Models.coefficient v) (10 ^ k)) as [Herr [Hlo Hhi]];
    [lia..|].
  split; [|exact Herr].
  unfold Models.amount_field, Models.validate_amount, Models.quantize_001.
  assert ((0 <? Models.coefficient v) = true) as -> by (apply Z.ltb_lt; lia).
  assert ((Models.coefficient v <=? 0) = false) as -> by (apply Z.leb_gt; lia).
  assert ((-2 <=? Models.exponent v) = false) as -> by (apply Z.leb_gt; lia).
  rewrite Z.sgn_pos by lia.
  rewrite (Z.abs_eq (Models.coefficient v)) by lia.
  rewrite Z.mul_1_l. fold k.
  assert (Models.coefficient v / 10 ^ k ≤ Models.coefficient v / 10) as Hq.
  { apply Z.div_le_compat_l; lia. }
  assert (0 ≤ Models.coefficient v / 10 ^ k) as Hq0 by (apply Z.div_pos; lia).
  assert (Models.coefficient v / 10 < 10 ^ 27) as Hq1.
  { apply Z.div_lt_upper_bound; [lia|]. unfold Models.prec in Hprec.
    change (10 * 10 ^ 27) with (10 ^ 28). exact Hprec. }
  assert ((10 ^ Models.prec
           <=? Z.abs (Models.div_half_even (Models.coefficient v) (10 ^ k))) = false)
    as ->; [|reflexivity].
  apply Z.leb_gt. unfold Models.prec.
  assert (10 ^ 27 + 1 ≤ 10 ^ 28) by (vm_compute; discriminate).
  lia.
Qed.

Lemma long_amount_is_rounded_witness :
  Models.amount_field (Models.mk_Decimal 1239 (-3))
  = Models.Valid
      (Models.mk_Decimal
         (Models.div_half_even (Models.coefficient (Models.mk_Decimal 1239 (-3)))
            (10 ^ (-2 - Models.exponent (Models.mk_Decimal 1239 (-3)))))
         (-2))
  ∧ 2 * Z.abs (Models.div_half_even (Models.coefficient (Models.mk_Decimal 1239 (-3)))
                 (10 ^ (-2 - Models.exponent (Models.mk_Decimal 1239 (-3))))
               * 10 ^ (-2 - Models.exponent (Models.mk_Decimal 1239 (-3)))
               - Models.coefficient (Models.mk_Decimal 1239 (-3)))
    ≤ 10 ^ (-2 - Models.exponent (Models.mk_Decimal 1239 (-3))).
Proof.
  apply (long_amount_is_rounded (Models.mk_Decimal 1239 (-3))).
  - simpl. lia.
  - unfold more_than_two_fractional_digits. simpl. lia.
  - vm_compute. reflexivity.
Defined.

(** C7, as stated, fails: the amount 1.239 has three fractional digits; it is
    not refused but passed on as 1.24. *)
Lemma amount_1_239_is_accepted :
  more_than_two_fractional_digits (Models.mk_Decimal 1239 (-3))
  ∧ Models.amount_field (Models.mk_Decimal 1239 (-3))
    = Models.Valid (Models.mk_Decimal 124 (-2))
  ∧ ¬ rejected (Models.mk_Decimal 1239 (-3)).
Proof.
  split; [unfold more_than_two_fractional_digits; simpl; lia|].
  split; [vm_compute; reflexivity|].
  intros H. apply (H (Models.mk_Decimal 124 (-2))). vm_compute. reflexivity.
Qed.

(** * More of the code *)

(** ** Looking a user up by name *)

Lemma head_filter_Some {A} (P : A → Prop) `{!∀ x, Decision (P x)} (l : list A) x :
  head (filter P l) = Some x → P x ∧ x ∈ l.
Proof.
  intros Hh. apply head_Some_elem_of in Hh. by apply list_elem_of_filter in Hh.
Qed.

Lemma head_filter_None {A} (P : A → Prop) `{!∀ x, Decision (P x)} (l : list A) :
  head (filter P l) = None → ∀ x, x ∈ l → ¬ P x.
Proof.
  intros Hh x Hx HP. apply head_None in Hh.
  assert (x ∈ filter P l) as Hin by (by apply list_elem_of_filter).
  rewrite Hh in Hin. by apply not_elem_of_nil in Hin.
Qed.

Lemma get_user_by_username_Some d name u :
  UserCRUD.get_user_by_username d name = Some u →
  Models.User_username u = name
  ∧ users d !! Models.User_id u = Some (mk_user_row name (Models.User_balance u)).
Proof.
  unfold UserCRUD.get_user_by_username.
  destruct (head _) as [[k r]|] eqn:E; simpl; [|discriminate].
  intros [= <-]. apply head_filter_Some in E as [Hname Hin]. simpl in Hname.
  apply elem_of_map_to_list in Hin. destruct r as [n b]. simpl in *. by subst.
Qed.

Lemma get_user_by_username_None d name :
  UserCRUD.get_user_by_username d name = None →
  ∀ k r, users d !! k = Some r → username r ≠ name.
Proof.
  unfold UserCRUD.get_user_by_username.
  destruct (head _) as [[k r]|] eqn:E; simpl; [discriminate|].
  intros _ k r Hk Hname.
  apply (head_filter_None _ _ E (k, r)); [by apply elem_of_map_to_list|done].
Qed.

Lemma get_user_by_username_unique d k r :
  unique_usernames d → users d !! k = Some r →
  UserCRUD.get_user_by_username d (username r) = Some (UserCRUD.to_User k r).
Proof.
  intros Hu Hk.
  destruct (UserCRUD.get_user_by_username d (username r)) as [u|] eqn:E.
  - apply get_user_by_username_Some in E as [Hn Hrow].
    destruct u as [k' n' b']. simpl in *. subst n'.
    assert (k' = k) as -> by (by apply (Hu _ _ _ _ Hrow Hk)).
    rewrite Hk in Hrow. injection Hrow as ->. reflexivity.
  - by destruct (get_user_by_username_None d _ E k r Hk).
Qed.

(** X1: [get_user_by_username] answers with a user stored under the id it
    gives, with the name asked for and the stored balance; it answers [None]
    only when no stored user has that name. *)
Theorem get_user_by_username_correct d name :
  match UserCRUD.get_user_by_username d name with
  | Some u =>
      Models.User_username u = name
      ∧ users d !! Models.User_id u = Some (mk_user_row name (Models.User_balance u))
  | None => ∀ k r, users d !! k = Some r → username r ≠ name
  end.
Proof.
  destruct (UserCRUD.get_user_by_username d name) as [u|] eqn:E.
  - by apply get_user_by_username_Some.
  - by apply get_user_by_username_None.
Qed.

(** X2: with unique user names, looking up the name of a stored user gives
    back that user: its id, its name and its balance. *)
Theorem get_user_by_username_finds d k r :
  unique_usernames d → users d !! k = Some r →
  UserCRUD.get_user_by_username d (username r)
  = Some (Models.mk_User k (username r) (balance r)).
Proof. intros Hu Hk. by rewrite (get_user_by_username_unique d k r). Qed.

Lemma unique_usernames_db1 : unique_usernames db1.
Proof.
  intros k1 k2 r1 r2 H1 H2. unfold db1 in *. simpl in *.
  apply lookup_insert_Some in H1 as [[<- <-]|[? H1]];
    apply lookup_insert_Some in H2 as [[<- <-]|[? H2]]; try done;
    try (apply lookup_insert_Some in H1 as [[<- <-]|[? H1]]);
    try (apply lookup_insert_Some in H2 as [[<- <-]|[? H2]]);
    try done; simpl; try discriminate.
Qed.

Lemma get_user_by_username_finds_witness :
  UserCRUD.get_user_by_username db1 (username (mk_user_row "mary" 150000))
  = Some (Models.mk_User 2 (username (mk_user_row "mary" 150000))
            (balance (mk_user_row "mary" 150000))).
Proof.
  apply (get_user_by_username_finds db1 2 (mk_user_row "mary" 150000)).
  - exact unique_usernames_db1.
  - vm_compute. reflexivity.
Defined.

(** ** Deposit, withdrawal and the balance that is read back *)



(** X3: for an account that exists with a stored balance [b] that is not
    negative, and an amount that keeps [b + amt] within the range of the
    column: the deposit writes [b + amt] as the balance of that account and
    returns it; if [b + amt] is negative nothing is written and the answer is
    the error 500 that wraps the violation of the CHECK. *)
Theorem deposit_adjusts_balance d u r amt :
  users d !! Models.User_id u = Some r →
  0 ≤ balance r →
  Z.abs (balance r + amt) < NUMERIC_15_2_LIMIT →
  Routes.deposit_balance d (Models.mk_DepositRequest amt) u
  = if balance r + amt <? 0 then
      (Routes.HTTPException 500 (Routes.DepositFailed CheckViolationError), d)
    else
      (Routes.Ok (Models.mk_MessageResponse (Some (balance r + amt))),
       with_balance d (Models.User_id u) r (balance r + amt)).
Proof.
  intros Hr Hb Hlim. unfold Routes.deposit_balance, UserCRUD.get_balance.
  rewrite Hr. simpl. rewrite update_balance_unfold, Hr.
  assert ((0 <=? balance r) = true) as -> by (apply Z.leb_le; lia).
  unfold store_balance.
  assert ((NUMERIC_15_2_LIMIT <=? Z.abs (balance r + amt)) = false) as ->
    by (apply Z.leb_gt; lia).
  by destruct (balance r + amt <? 0).
Qed.

Lemma deposit_adjusts_balance_witness :
  Routes.deposit_balance db0 (Models.mk_DepositRequest 1000) john
  = if balance (mk_user_row "john" 100000) + 1000 <? 0 then
      (Routes.HTTPException 500 (Routes.DepositFailed CheckViolationError), db0)
    else
      (Routes.Ok (Models.mk_MessageResponse
                    (Some (balance (mk_user_row "john" 100000) + 1000))),
       with_balance db0 (Models.User_id john) (mk_user_row "john" 100000)
         (balance (mk_user_row "john" 100000) + 1000)).
Proof.
  apply (deposit_adjusts_balance db0 john (mk_user_row "john" 100000) 1000).
  - vm_compute. reflexivity.
  - simpl. lia.
  - vm_compute. reflexivity.
Defined.



Lemma update_balance_true d k v :
  fst (UserCRUD.update_balance d k v) = Return true →
  ∃ r, users d !! k = Some r ∧ 0 ≤ balance r ∧ 0 ≤ v < NUMERIC_15_2_LIMIT
       ∧ snd (UserCRUD.update_balance d k v) = with_balance d k r v.
Proof.
  rewrite update_balance_unfold.
  destruct (users d !! k) as [r|]; [|discriminate].
  destruct (Z.leb_spec 0 (balance r)); [|discriminate].
  destruct (store_balance v) as [w|e] eqn:E; [|discriminate].
  apply store_balance_Return in E as [-> Hv]. intros _. by exists r.
Qed.

Lemma update_balance_not_true d k v :
  fst (UserCRUD.update_balance d k v) ≠ Return true →
  snd (UserCRUD.update_balance d k v) = d.
Proof.
  rewrite update_balance_unfold.
  destruct (users d !! k) as [r|]; [|done].
  destruct (0 <=? balance r); [|done].
  by destruct (store_balance v).
Qed.

(** X5: [update_balance] touches one balance and nothing else: the rows of
    the other users, the name of the user, the set of users and the ledger
    are as before; and when it returns true, [get_balance] then reads the
    new balance. *)
Theorem update_balance_frame d k v :
  (∀ k', k' ≠ k →
     users (snd (UserCRUD.update_balance d k v)) !! k' = users d !! k')
  ∧ (username <$> users (snd (UserCRUD.update_balance d k v)) !! k)
    = (username <$> users d !! k)
  ∧ transfers (snd (UserCRUD.update_balance d k v)) = transfers d
  ∧ (fst (UserCRUD.update_balance d k v) = Return true →
     UserCRUD.get_balance (snd (UserCRUD.update_balance d k v)) k = Some v)
  ∧ (fst (UserCRUD.update_balance d k v) ≠ Return true →
     snd (UserCRUD.update_balance d k v) = d).
Proof.
  destruct (fst (UserCRUD.update_balance d k v)) as [[|]|e] eqn:E.
  - destruct (update_balance_true d k v E) as (r & Hr & _ & _ & ->).
    unfold UserCRUD.get_balance. simpl.
    repeat split; try done.
    + intros k' Hne. by rewrite lookup_insert_ne.
    + by rewrite lookup_insert_eq, Hr.
    + intros _. by rewrite lookup_insert_eq.
  - rewrite (update_balance_not_true d k v) by (by rewrite E).
    repeat split; done.
  - rewrite (update_balance_not_true d k v) by (by rewrite E).
    repeat split; done.
Qed.

Lemma deposit_Ok d u amt m :
  fst (Routes.deposit_balance d (Models.mk_DepositRequest amt) u) = Routes.Ok m →
  ∃ r, users d !! Models.User_id u = Some r
       ∧ 0 ≤ balance r + amt
       ∧ m = Models.mk_MessageResponse (Some (balance r + amt))
       ∧ snd (Routes.deposit_balance d (Models.mk_DepositRequest amt) u)
         = with_balance d (Models.User_id u) r (balance r + amt).
Proof.
  unfold Routes.deposit_balance, UserCRUD.get_balance.
  destruct (users d !! Models.User_id u) as [r|] eqn:Hr; simpl; [|discriminate].
  destruct (UserCRUD.update_balance d (Models.User_id u) (balance r + amt))
    as [[[|]|e] d'] eqn:E; simpl; try discriminate.
  intros [= <-].
  destruct (update_balance_true d (Models.User_id u) (balance r + amt))
    as (r' & Hr' & _ & Hv & Hd'); [by rewrite E|].
  rewrite E in Hd'. simpl in Hd'. rewrite Hr in Hr'. injection Hr' as <-.
  exists r. repeat split; try done. lia.
Qed.

Lemma withdraw_Ok d u amt m :
  fst (Routes.withdraw_balance d (Models.mk_WithdrawRequest amt) u) = Routes.Ok m →
  ∃ r, users d !! Models.User_id u = Some r
       ∧ 0 ≤ balance r - amt
       ∧ m = Models.mk_MessageResponse (Some (balance r - amt))
       ∧ snd (Routes.withdraw_balance d (Models.mk_WithdrawRequest amt) u)
         = with_balance d (Models.User_id u) r (balance r - amt).
Proof.
  unfold Routes.withdraw_balance, UserCRUD.get_balance.
  destruct (users d !! Models.User_id u) as [r|] eqn:Hr; simpl; [|discriminate].
  destruct (balance r <? amt); [discriminate|].
  destruct (UserCRUD.update_balance d (Models.User_id u) (balance r - amt))
    as [[[|]|e] d'] eqn:E; simpl; try discriminate.
  intros [= <-].
  destruct (update_balance_true d (Models.User_id u) (balance r - amt))
    as (r' & Hr' & _ & Hv & Hd'); [by rewrite E|].
  rewrite E in Hd'. simpl in Hd'. rewrite Hr in Hr'. injection Hr' as <-.
  exists r. repeat split; try done. lia.
Qed.

(** X6: a deposit that succeeds raises the sum of all balances by exactly
    its amount, and a withdrawal that succeeds lowers it by exactly its
    amount. *)
Theorem balance_routes_change_total d u amt m :
  (fst (Routes.deposit_balance d (Models.mk_DepositRequest amt) u) = Routes.Ok m →
   total_balance (snd (Routes.deposit_balance d (Models.mk_DepositRequest amt) u))
   = total_balance d + amt)
  ∧ (fst (Routes.withdraw_balance d (Models.mk_WithdrawRequest amt) u) = Routes.Ok m →
     total_balance (snd (Routes.withdraw_balance d (Models.mk_WithdrawRequest amt) u))
     = total_balance d - amt).
Proof.
  split; intros H.
  - apply deposit_Ok in H as (r & Hr & _ & _ & ->).
    rewrite total_balance_with_balance by done. lia.
  - apply withdraw_Ok in H as (r & Hr & _ & _ & ->).
    rewrite total_balance_with_balance by done. lia.
Qed.

(** X7: the balance a successful deposit or withdrawal returns is the
    balance [GET /balance/] then answers with. *)
Theorem balance_is_read_back d u amt b :
  (fst (Routes.deposit_balance d (Models.mk_DepositRequest amt) u)
   = Routes.Ok (Models.mk_MessageResponse (Some b)) →
   Routes2.get_balance
     (snd (Routes.deposit_balance d (Models.mk_DepositRequest amt) u)) u
   = Routes2.Ok b)
  ∧ (fst (Routes.withdraw_balance d (Models.mk_WithdrawRequest amt) u)
     = Routes.Ok (Models.mk_MessageResponse (Some b)) →
     Routes2.get_balance
       (snd (Routes.withdraw_balance d (Models.mk_WithdrawRequest amt) u)) u
     = Routes2.Ok b).
Proof.
  split; intros H.
  - apply deposit_Ok in H as (r & Hr & Hv & [= ->] & ->).
    unfold Routes2.get_balance, UserCRUD.get_balance. simpl.
    rewrite lookup_insert_eq. simpl.
    by assert ((0 <=? balance r + amt) = true) as -> by (apply Z.leb_le; lia).
  - apply withdraw_Ok in H as (r & Hr & Hv & [= ->] & ->).
    unfold Routes2.get_balance, UserCRUD.get_balance. simpl.
    rewrite lookup_insert_eq. simpl.
    by assert ((0 <=? balance r - amt) = true) as -> by (apply Z.leb_le; lia).
Qed.

(** ** The ledger *)

Lemma create_transfer_seq d f t a ds :
  transfers_id_seq d ≤ transfers_id_seq (snd (TransferCRUD.create_transfer d f t a ds)).
Proof.
  rewrite create_transfer_unfold.
  destruct (users d !! f) as [s|] eqn:Hf.
  2:{ rewrite run_sender_missing by done. simpl. lia. }
  destruct (Z.lt_ge_cases (balance s) a) as [Hlt|Hle].
  { rewrite (run_insufficient d f t a ds s) by done. simpl. lia. }
  destruct (users d !! t) as [r|] eqn:Ht.
  2:{ rewrite (run_receiver_missing d f t a ds s) by done. simpl. lia. }
  rewrite (run_both d f t a ds s r) by done.
  destruct (store_balance (balance s - a)) as [v|e]; simpl; [|lia].
  destruct (store_balance _) as [v1|e]; simpl; [|lia].
  unfold insert_transfer. simpl.
  destruct (NUMERIC_15_2_LIMIT <=? Z.abs a); simpl; [lia|].
  destruct ((a <=? 0) || (f =? t)); simpl; lia.
Qed.

(** X8: a transfer that succeeds appends exactly one record to the ledger,
    the record it returns, which carries the two ids, the amount and the
    description that were passed in and the next value of the sequence as
    its id; it creates, deletes and renames no user. *)
Theorem successful_transfer_is_recorded d f t a ds row :
  fst (TransferCRUD.create_transfer d f t a ds) = Return row →
  transfers (snd (TransferCRUD.create_transfer d f t a ds)) = transfers d ++ [row]
  ∧ row = mk_transfer_row (transfers_id_seq d + 1) f t a ds
  ∧ transfers_id_seq (snd (TransferCRUD.create_transfer d f t a ds))
    = transfers_id_seq d + 1
  ∧ (∀ k, (username <$> users (snd (TransferCRUD.create_transfer d f t a ds)) !! k)
          = (username <$> users d !! k)).
Proof.
  intros H.
  apply create_transfer_commit in H as (s & r & Hf & Ht & Hne & _ & _ & _ & -> & ->).
  simpl. repeat split. intros k.
  rewrite !lookup_insert. repeat case_decide; subst; by rewrite ?Hf, ?Ht.
Qed.

Lemma successful_transfer_is_recorded_witness :
  transfers (snd (TransferCRUD.create_transfer db0 1 2 50000 (Some "test 500")))
  = transfers db0 ++ [mk_transfer_row 1 1 2 50000 (Some "test 500")]
  ∧ mk_transfer_row 1 1 2 50000 (Some "test 500")
    = mk_transfer_row (transfers_id_seq db0 + 1) 1 2 50000 (Some "test 500")
  ∧ transfers_id_seq (snd (TransferCRUD.create_transfer db0 1 2 50000 (Some "test 500")))
    = transfers_id_seq db0 + 1
  ∧ (∀ k, (username <$> users (snd (TransferCRUD.create_transfer db0 1 2 50000
                                      (Some "test 500"))) !! k)
          = (username <$> users db0 !! k)).
Proof.
  apply (successful_transfer_is_recorded db0 1 2 50000 (Some "test 500")).
  vm_compute. reflexivity.
Defined.

Lemma ledger_valid_intro d d' :
  ledger_valid d →
  transfers d' = transfers d →
  transfers_id_seq d ≤ transfers_id_seq d' →
  (∀ k, is_Some (users d !! k) → is_Some (users d' !! k)) →
  ledger_valid d'.
Proof.
  intros [Hall Hnd] Ht Hseq Hdom. split.
  - rewrite Ht. eapply Forall_impl; [exact Hall|].
    intros x (? & ? & ? & ?). repeat split; auto. lia.
  - unfold ledger_ids. by rewrite Ht.
Qed.

Lemma create_transfer_ledger_valid d f t a ds :
  ledger_valid d → ledger_valid (snd (TransferCRUD.create_transfer d f t a ds)).
Proof.
  intros Hd.
  destruct (fst (TransferCRUD.create_transfer d f t a ds)) as [row|e] eqn:E.
  - apply create_transfer_commit in E as
      (s & r & Hf & Ht & Hne & Hpos & _ & _ & _ & ->).
    destruct Hd as [Hall Hnd]. unfold ledger_valid, ledger_ids, committed. simpl.
    assert (∀ k, is_Some (users d !! k) →
                 is_Some (<[t:=mk_user_row (username r) (balance r + a)]>
                            (<[f:=mk_user_row (username s) (balance s - a)]> (users d))
                          !! k)) as Hdom.
    { intros k Hk. rewrite !lookup_insert. repeat case_decide; eauto. }
    split.
    + apply Forall_app. split.
      * eapply Forall_impl; [exact Hall|].
        intros x (? & ? & ? & ?). repeat split; auto. lia.
      * repeat constructor; simpl; auto; try lia; apply Hdom; eauto.
    + rewrite fmap_app. apply NoDup_app. split; [done|]. split.
      * intros x Hx Hx'. apply list_elem_of_singleton in Hx'. simpl in Hx'.
        apply list_elem_of_fmap in Hx as (y & Hy & Hin).
        rewrite Forall_forall in Hall. apply Hall in Hin as (? & _). lia.
      * apply NoDup_singleton.
  - apply create_transfer_rollback in E as [Hu Ht].
    apply (ledger_valid_intro d); [done|done|apply create_transfer_seq|].
    intros k. by rewrite Hu.
Qed.

(** X9: what the schema promises of the ledger is kept by every call of the
    engine, whether it commits or rolls back, and by every [update_balance]:
    the ids of the records are distinct and were drawn from the sequence,
    both users of every record exist, and every amount is positive. *)
Theorem ledger_stays_valid d f t a ds k v :
  ledger_valid d →
  ledger_valid (snd (TransferCRUD.create_transfer d f t a ds))
  ∧ ledger_valid (snd (UserCRUD.update_balance d k v)).
Proof.
  intros Hd. split; [by apply create_transfer_ledger_valid|].
  destruct (fst (UserCRUD.update_balance d k v)) as [[|]|e] eqn:E.
  - destruct (update_balance_true d k v E) as (r & Hr & _ & _ & ->).
    apply (ledger_valid_intro d); [done|done|simpl; lia|].
    intros k' Hk'. simpl. rewrite lookup_insert. case_decide; eauto.
  - by rewrite (update_balance_not_true d k v) by (by rewrite E).
  - by rewrite (update_balance_not_true d k v) by (by rewrite E).
Qed.

Lemma ledger_valid_db1 : ledger_valid db1.
Proof.
  split.
  - repeat constructor; simpl; try lia; vm_compute; eauto.
  - unfold ledger_ids. simpl. apply NoDup_singleton.
Qed.

Lemma ledger_stays_valid_witness :
  ledger_valid (snd (TransferCRUD.create_transfer db1 2 1 30000 None))
  ∧ ledger_valid (snd (UserCRUD.update_balance db1 1 70000)).
Proof. apply (ledger_stays_valid db1 2 1 30000 None 1 70000), ledger_valid_db1. Defined.

Lemma filter_none {A} (P : A → Prop) `{!∀ x, Decision (P x)} (l : list A) :
  Forall (λ x, ¬ P x) l → filter P l = [].
Proof.
  induction 1 as [|x l Hx _ IH]; [done|]. by rewrite filter_cons_False.
Qed.

(** The record a transfer has just committed is the one its id finds. *)
Lemma get_transfer_by_id_committed d f t a ds s r :
  Forall (λ x, id x ≤ transfers_id_seq d) (transfers d) →
  users d !! f = Some s → users d !! t = Some r → f ≠ t →
  TransferCRUD.get_transfer_by_id (committed d f t a ds s r) (transfers_id_seq d + 1)
  = Some (Models.mk_TransferResponse (transfers_id_seq d + 1)
            (username s) (username r) a ds).
Proof.
  intros Hall Hf Ht Hne. unfold TransferCRUD.get_transfer_by_id, committed. simpl.
  rewrite filter_app, filter_none.
  2:{ eapply Forall_impl; [exact Hall|]. simpl. intros x ?. lia. }
  rewrite filter_cons_True by done. simpl.
  rewrite (lookup_insert_ne _ t f) by congruence.
  rewrite lookup_insert_eq. simpl.
  by rewrite lookup_insert_eq.
Qed.

Lemma route_create_transfer_Ok d req u resp :
  fst (Routes.create_transfer d req u) = Routes.Ok resp →
  ∃ recipient row,
    UserCRUD.get_user_by_username d (Models.to_username req) = Some recipient
    ∧ fst (TransferCRUD.create_transfer d (Models.User_id u)
             (Models.User_id recipient) (Models.amount req)
             (Models.description req)) = Return row
    ∧ snd (Routes.create_transfer d req u)
      = snd (TransferCRUD.create_transfer d (Models.User_id u)
               (Models.User_id recipient) (Models.amount req)
               (Models.description req))
    ∧ resp = TransferCRUD.get_transfer_by_id (snd (Routes.create_transfer d req u))
               (id row).
Proof.
  unfold Routes.create_transfer.
  destruct (String.eqb _ _); [discriminate|].
  destruct (UserCRUD.get_user_by_username _ _) as [recipient|]; [|discriminate].
  destruct (TransferCRUD.create_transfer _ _ _ _ _) as [[row|[m| |]] d'] eqn:E;
    simpl; try discriminate.
  intros [= <-]. exists recipient, row. by rewrite E.
Qed.

(** X10: when [POST /transfers/] succeeds on a ledger whose ids were drawn
    from the sequence, the transfer it answers with has the next id of the
    sequence, the stored name of the caller as its sender, the name asked
    for as its recipient, and the amount and the description of the request;
    and the tables are those the transfer committed. *)
Theorem route_transfer_response d req u resp :
  Forall (λ x, id x ≤ transfers_id_seq d) (transfers d) →
  fst (Routes.create_transfer d req u) = Routes.Ok resp →
  ∃ s recipient r,
    users d !! Models.User_id u = Some s
    ∧ users d !! Models.User_id recipient = Some r
    ∧ username r = Models.to_username req
    ∧ resp = Some (Models.mk_TransferResponse (transfers_id_seq d + 1)
                     (username s) (Models.to_username req)
                     (Models.amount req) (Models.description req))
    ∧ snd (Routes.create_transfer d req u)
      = committed d (Models.User_id u) (Models.User_id recipient)
          (Models.amount req) (Models.description req) s r.
Proof.
  intros Hall H.
  apply route_create_transfer_Ok in H as (recipient & row & Hrec & Hrow & Hd' & ->).
  apply get_user_by_username_Some in Hrec as [Hname Hr'].
  apply create_transfer_commit in Hrow as
    (s & r & Hf & Ht & Hne & _ & _ & _ & -> & Hc).
  rewrite Hd', Hc. simpl.
  rewrite Hr' in Ht. injection Ht as <-. simpl.
  exists s, recipient, (mk_user_row (Models.to_username req) (Models.User_balance recipient)).
  repeat split; try done.
  by rewrite (get_transfer_by_id_committed d _ _ _ _ s
                (mk_user_row (Models.to_username req) (Models.User_balance recipient))).
Qed.

Lemma route_transfer_response_witness :
  ∃ s recipient r,
    users db1 !! Models.User_id john = Some s
    ∧ users db1 !! Models.User_id recipient = Some r
    ∧ username r = Models.to_username (Models.mk_TransferRequest "mary" 1000 None)
    ∧ Some (Models.mk_TransferResponse 2 "john" "mary" 1000 None)
      = Some (Models.mk_TransferResponse (transfers_id_seq db1 + 1)
                (username s)
                (Models.to_username (Models.mk_TransferRequest "mary" 1000 None))
                (Models.amount (Models.mk_TransferRequest "mary" 1000 None))
                (Models.description (Models.mk_TransferRequest "mary" 1000 None)))
    ∧ snd (Routes.create_transfer db1 (Models.mk_TransferRequest "mary" 1000 None) john)
      = committed db1 (Models.User_id john) (Models.User_id recipient)
          (Models.amount (Models.mk_TransferRequest "mary" 1000 None))
          (Models.description (Models.mk_TransferRequest "mary" 1000 None)) s r.
Proof.
  apply (route_transfer_response db1 (Models.mk_TransferRequest "mary" 1000 None) john).
  - repeat constructor. simpl. lia.
  - vm_compute. reflexivity.
Defined.

(** X11: when [POST /transfers/] answers with an error, the [users] and the
    [transfers] tables are as they were, and the status is 400, 404 or 500. *)
Theorem route_transfer_failure_changes_nothing d req u c det :
  fst (Routes.create_transfer d req u) = Routes.HTTPException c det →
  users (snd (Routes.create_transfer d req u)) = users d
  ∧ transfers (snd (Routes.create_transfer d req u)) = transfers d
  ∧ (c = 400 ∨ c = 404 ∨ c = 500).
Proof.
  unfold Routes.create_transfer.
  destruct (String.eqb _ _); simpl; [intros [= <- _]; auto|].
  destruct (UserCRUD.get_user_by_username _ _) as [recipient|];
    simpl; [|intros [= <- _]; auto].
  destruct (TransferCRUD.create_transfer d (Models.User_id u)
              (Models.User_id recipient) (Models.amount req)
              (Models.description req)) as [[row|e] d'] eqn:E; simpl.
  - discriminate.
  - destruct (create_transfer_rollback d (Models.User_id u)
                (Models.User_id recipient) (Models.amount req)
                (Models.description req) e) as [Hu Ht]; [by rewrite E|].
    rewrite E in Hu, Ht. simpl in Hu, Ht.
    destruct e as [m| |]; simpl; intros [= <- _]; auto.
Qed.

Lemma route_transfer_failure_changes_nothing_witness :
  users (snd (Routes.create_transfer db0
                (Models.mk_TransferRequest "mary" 500000 None) john)) = users db0
  ∧ transfers (snd (Routes.create_transfer db0
                      (Models.mk_TransferRequest "mary" 500000 None) john))
    = transfers db0
  ∧ (400 = 400 ∨ 400 = 404 ∨ 400 = 500).
Proof.
  apply (route_transfer_failure_changes_nothing db0
           (Models.mk_TransferRequest "mary" 500000 None) john 400
           (Routes.Str InsufficientFunds)).
  vm_compute. reflexivity.
Defined.



(** ** Reading transfers *)

Lemma get_transfer_by_id_Some d tid resp :
  TransferCRUD.get_transfer_by_id d tid = Some resp →
  ∃ t s r, t ∈ transfers d ∧ id t = tid
           ∧ users d !! from_user_id t = Some s
           ∧ users d !! to_user_id t = Some r
           ∧ resp = Models.mk_TransferResponse tid (username s) (username r)
                      (amount t) (description t).
Proof.
  unfold TransferCRUD.get_transfer_by_id.
  destruct (head _) as [t|] eqn:E; simpl; [|discriminate].
  apply head_filter_Some in E as [Hid Hin].
  destruct (users d !! from_user_id t) as [s|] eqn:Hs; simpl; [|discriminate].
  destruct (users d !! to_user_id t) as [r|] eqn:Hr; simpl; [|discriminate].
  intros [= <-]. exists t, s, r. by rewrite Hid.
Qed.


(** X13: [GET /transfers/{id}] never shows a transfer to a third party: with
    unique user names, whoever gets a transfer back is the sender or the
    recipient of a stored record with that id, and what is shown is that
    record with the names of its two users. *)
Theorem transfer_shown_only_to_its_parties d tid u resp :
  unique_usernames d →
  Routes2.get_transfer_by_id d tid u = Routes2.Ok resp →
  ∃ t s r, t ∈ transfers d ∧ id t = tid
           ∧ (Models.User_id u = from_user_id t ∨ Models.User_id u = to_user_id t)
           ∧ users d !! from_user_id t = Some s
           ∧ users d !! to_user_id t = Some r
           ∧ resp = Models.mk_TransferResponse tid (username s) (username r)
                      (amount t) (description t).
Proof.
  intros Hu. unfold Routes2.get_transfer_by_id.
  destruct (TransferCRUD.get_transfer_by_id d tid) as [transfer|] eqn:E;
    [|discriminate].
  apply get_transfer_by_id_Some in E as (t & s & r & Hin & Hid & Hs & Hr & ->).
  simpl.
  rewrite (get_user_by_username_unique d _ s Hu Hs),
    (get_user_by_username_unique d _ r Hu Hr). simpl.
  destruct (Z.eqb_spec (Models.User_id u) (from_user_id t)) as [Hf|Hf];
    destruct (Z.eqb_spec (Models.User_id u) (to_user_id t)) as [Ht|Ht];
    simpl; try discriminate; intros [= <-]; exists t, s, r; auto 10.
Qed.

Lemma transfer_shown_only_to_its_parties_witness :
  ∃ t s r, t ∈ transfers db1 ∧ id t = 1
           ∧ (Models.User_id john = from_user_id t ∨ Models.User_id john = to_user_id t)
           ∧ users db1 !! from_user_id t = Some s
           ∧ users db1 !! to_user_id t = Some r
           ∧ Models.mk_TransferResponse 1 "john" "mary" 50000 (Some "test 500")
             = Models.mk_TransferResponse 1 (username s) (username r)
                 (amount t) (description t).
Proof.
  apply (transfer_shown_only_to_its_parties db1 1 john).
  - exact unique_usernames_db1.
  - vm_compute. reflexivity.
Defined.



(** X15: [get_user_transfers] returns at most [limit] transfers, and every
    one of them is a stored record that the user sent or received, shown with
    the names of its two users. *)
Theorem get_user_transfers_only_own d user_id limit offset :
  (length (TransferCRUD.get_user_transfers d user_id limit offset) ≤ limit)%nat
  ∧ Forall (λ resp, ∃ t, t ∈ transfers d
                         ∧ (from_user_id t = user_id ∨ to_user_id t = user_id)
                         ∧ TransferCRUD.joined d t = Some resp)
      (TransferCRUD.get_user_transfers d user_id limit offset).
Proof.
  unfold TransferCRUD.get_user_transfers. split.
  - rewrite length_take. lia.
  - apply Forall_forall. intros resp Hin.
    apply subseteq_take, subseteq_drop in Hin.
    apply list_elem_of_omap in Hin as (t & Hin & Hj).
    apply list_elem_of_filter in Hin as [Hown Hin].
    rewrite elem_of_reverse in Hin. by exists t.
Qed.



(** X18: a transfer that has just succeeded is the first one that
    [get_user_transfers] lists, for its sender and for its recipient, with
    the id it was given. *)
Theorem new_transfer_is_listed_first d f t a ds row n :
  fst (TransferCRUD.create_transfer d f t a ds) = Return row →
  ∃ resp,
    TransferCRUD.joined (snd (TransferCRUD.create_transfer d f t a ds)) row = Some resp
    ∧ Models.response_id resp = id row
    ∧ Models.response_amount resp = a
    ∧ head (TransferCRUD.get_user_transfers
              (snd (TransferCRUD.create_transfer d f t a ds)) f (S n) 0) = Some resp
    ∧ head (TransferCRUD.get_user_transfers
              (snd (TransferCRUD.create_transfer d f t a ds)) t (S n) 0) = Some resp.
Proof.
  intros H.
  apply create_transfer_commit in H as (s & r & Hf & Ht & Hne & _ & _ & _ & -> & ->).
  exists (Models.mk_TransferResponse (transfers_id_seq d + 1) (username s)
            (username r) a ds).
  assert (TransferCRUD.joined (committed d f t a ds s r)
            (mk_transfer_row (transfers_id_seq d + 1) f t a ds)
          = Some (Models.mk_TransferResponse (transfers_id_seq d + 1) (username s)
                    (username r) a ds)) as Hj.
  { unfold TransferCRUD.joined, committed. simpl.
    rewrite (lookup_insert_ne _ t f) by congruence.
    rewrite lookup_insert_eq. simpl. by rewrite lookup_insert_eq. }
  split; [exact Hj|]. split; [reflexivity|]. split; [reflexivity|].
  unfold TransferCRUD.get_user_transfers. rewrite !drop_0.
  replace (transfers (committed d f t a ds s r))
    with (transfers d ++ [mk_transfer_row (transfers_id_seq d + 1) f t a ds])
    by reflexivity.
  rewrite reverse_snoc.
  split; (rewrite filter_cons_True by (simpl; auto)); simpl; by rewrite Hj.
Qed.

Lemma new_transfer_is_listed_first_witness :
  ∃ resp,
    TransferCRUD.joined (snd (TransferCRUD.create_transfer db1 2 1 30000 None))
      (mk_transfer_row 2 2 1 30000 None) = Some resp
    ∧ Models.response_id resp = id (mk_transfer_row 2 2 1 30000 None)
    ∧ Models.response_amount resp = 30000
    ∧ head (TransferCRUD.get_user_transfers
              (snd (TransferCRUD.create_transfer db1 2 1 30000 None)) 2 (S 49) 0)
      = Some resp
    ∧ head (TransferCRUD.get_user_transfers
              (snd (TransferCRUD.create_transfer db1 2 1 30000 None)) 1 (S 49) 0)
      = Some resp.
Proof.
  apply (new_transfer_is_listed_first db1 2 1 30000 None
           (mk_transfer_row 2 2 1 30000 None) 49).
  vm_compute. reflexivity.
Defined.

(** ** Registration *)



Lemma username_taken_false_inv d name :
  UserCRUD.username_taken d name = false →
  ∀ k r, users d !! k = Some r → username r ≠ name.
Proof.
  unfold UserCRUD.username_taken. intros H k r Hk Hn.
  apply bool_decide_eq_false in H. apply H. by exists k, r.
Qed.

Section Registration.

Variable hash_password : string → option string.

(** What [create_user] leaves: the tables as they were, or one new row of a
    name that was free, under an id that was free. *)
Lemma create_user_cases d sq ud :
  let res := UserCRUD.create_user hash_password d sq ud in
  sq ≤ res.2
  ∧ ((∃ e, res.1.1 = UserCRUD.NotCreated e ∧ res.1.2 = d)
     ∨ (∃ b, 0 ≤ b < NUMERIC_15_2_LIMIT
             ∧ users d !! (sq + 1) = None
             ∧ (∀ k r, users d !! k = Some r →
                       username r ≠ Models.create_username ud)
             ∧ res = (UserCRUD.Created
                        (Models.mk_User (sq + 1) (Models.create_username ud) b),
                      mk_database
                        (<[sq + 1 := mk_user_row (Models.create_username ud) b]>
                           (users d))
                        (transfers d) (transfers_id_seq d),
                      sq + 1))).
Proof.
  unfold UserCRUD.create_user.
  destruct (hash_password _); simpl; [|split; [lia|left; eauto]].
  destruct (Models.initial_balance ud) as [v|]; simpl; [|split; [lia|left; eauto]].
  destruct (store_balance _) as [b|e] eqn:E; simpl; [|split; [lia|left; eauto]].
  apply store_balance_Return in E as [-> Hb].
  destruct (bool_decide (is_Some (users d !! (sq + 1)))) eqn:E1; simpl;
    [split; [lia|left; eauto]|].
  destruct (UserCRUD.username_taken d _) eqn:E2; simpl; [split; [lia|left; eauto]|].
  split; [lia|]. right. exists (UserCRUD.numeric_15_2 v).
  apply bool_decide_eq_false in E1.
  split; [done|]. split; [by apply eq_None_not_Some|].
  split; [by apply username_taken_false_inv|done].
Qed.

(** X19: registering a name that a stored user already has is answered with
    400, draws no id and leaves the tables as they were, whatever the
    password and the initial balance. *)
Theorem register_taken_name d sq ud k r :
  users d !! k = Some r → username r = Models.create_username ud →
  Routes2.register_user hash_password d sq ud
  = (Routes2.HTTPException 400 (Routes2.RegistrationFailed Routes2.AlreadyExists),
     d, sq).
Proof.
  intros Hk Hn. unfold Routes2.register_user.
  destruct (UserCRUD.get_user_by_username d (Models.create_username ud)) eqn:E;
    [reflexivity|].
  by destruct (get_user_by_username_None d _ E k r Hk).
Qed.


(** X21: registration keeps the invariants of the tables, whatever its
    outcome: user names stay unique, no balance is negative, the ledger
    stays valid, every id of a user was drawn from the sequence, and the
    sequence never goes back. *)
Theorem register_keeps_invariants d sq ud :
  unique_usernames d → non_negative d → ledger_valid d →
  (∀ k, is_Some (users d !! k) → k ≤ sq) →
  let res := Routes2.register_user hash_password d sq ud in
  unique_usernames res.1.2 ∧ non_negative res.1.2 ∧ ledger_valid res.1.2
  ∧ (∀ k, is_Some (users res.1.2 !! k) → k ≤ res.2)
  ∧ sq ≤ res.2.
Proof.
  intros Hu Hn Hl Hids res. subst res. unfold Routes2.register_user.
  destruct (UserCRUD.get_user_by_username d _); simpl;
    [split; [done|split; [done|split; [done|split; [done|lia]]]]|].
  destruct (create_user_cases d sq ud) as [Hsq [(e & He & Hd)|(b & Hb & Hfree & Habs & Hres)]].
  - destruct (UserCRUD.create_user hash_password d sq ud) as [[[x|e'] d'] sq'];
      simpl in *; [discriminate|]. subst d'.
    split; [done|split; [done|split; [done|split; [|done]]]].
    intros k Hk. specialize (Hids k Hk). lia.
  - rewrite Hres. simpl.
    split; [|split; [|split; [|split]]].
    + intros k1 k2 r1 r2 H1 H2 Hname. simpl in *.
      apply lookup_insert_Some in H1 as [[<- <-]|[? H1]];
        apply lookup_insert_Some in H2 as [[<- <-]|[? H2]]; try done.
      * by destruct (Habs _ _ H2).
      * by destruct (Habs _ _ H1).
      * by apply (Hu _ _ _ _ H1 H2).
    + unfold non_negative. simpl. apply map_Forall_insert_2; [simpl; lia|done].
    + apply (ledger_valid_intro d); [done|done|simpl; lia|].
      intros k Hk. simpl. rewrite lookup_insert. case_decide; eauto.
    + intros k Hk. simpl in Hk. rewrite lookup_insert in Hk.
      case_decide; [lia|]. specialize (Hids k Hk). lia.
    + lia.
Qed.

End Registration.

Lemma register_taken_name_witness :
  Routes2.register_user (λ p, Some p) db1 2
    (Models.mk_UserCreate "mary" "secret1" (Some (Models.mk_Decimal 0 (-2))))
  = (Routes2.HTTPException 400 (Routes2.RegistrationFailed Routes2.AlreadyExists),
     db1, 2).
Proof.
  apply (register_taken_name (λ p, Some p) db1 2
           (Models.mk_UserCreate "mary" "secret1" (Some (Models.mk_Decimal 0 (-2))))
           2 (mk_user_row "mary" 150000)).
  - vm_compute. reflexivity.
  - reflexivity.
Defined.

Lemma db1_names k r :
  users db1 !! k = Some r → (k = 1 ∨ k = 2) ∧ (username r = "john" ∨ username r = "mary").
Proof.
  unfold db1. simpl. intros Hk.
  apply lookup_insert_Some in Hk as [[<- <-]|[_ Hk]]; [auto|].
  apply lookup_insert_Some in Hk as [[<- <-]|[_ Hk]]; [auto|].
  by rewrite lookup_empty in Hk.
Qed.


Lemma register_keeps_invariants_witness :
  let res := Routes2.register_user (λ p, Some p) db1 2
               (Models.mk_UserCreate "anna" "secret1"
                  (Some (Models.mk_Decimal 10005 (-3)))) in
  unique_usernames res.1.2 ∧ non_negative res.1.2 ∧ ledger_valid res.1.2
  ∧ (∀ k, is_Some (users res.1.2 !! k) → k ≤ res.2)
  ∧ 2 ≤ res.2.
Proof.
  apply (register_keeps_invariants (λ p, Some p) db1 2).
  - exact unique_usernames_db1.
  - apply (bool_decide_unpack _). vm_compute. exact I.
  - exact ledger_valid_db1.
  - intros k [r Hk]. apply db1_names in Hk as [[-> | ->] _]; lia.
Defined.

(** ** The validators of the amounts *)


(** X23: what validation lets through is stable: validating it again gives
    the same amount, except for 0.00, which validation can produce (from a
    positive amount below half a cent) but does not accept. *)
Theorem validated_amount_is_stable v w :
  Models.amount_field v = Models.Valid w →
  Models.amount_field w
  = if 0 <? Models.coefficient w then Models.Valid w
    else Models.Invalid Models.greater_than.
Proof.
  intros H.
  destruct (amount_field_two_digits v w H) as [He Hc]. unfold Models.cents in Hc.
  assert (Z.abs (Models.coefficient w) < 10 ^ Models.prec) as Hp.
  { revert H.
    unfold Models.amount_field, Models.validate_amount, Models.quantize_001.
    destruct (0 <? Models.coefficient v); [|discriminate].
    destruct (Models.coefficient v <=? 0); [discriminate|].
    destruct (10 ^ Models.prec <=? _) eqn:Hp; [discriminate|].
    intros [= <-]. simpl. by apply Z.leb_gt in Hp. }
  unfold Models.amount_field, Models.validate_amount, Models.quantize_001.
  destruct (Z.ltb_spec 0 (Models.coefficient w)); [|done].
  destruct (Z.leb_spec (Models.coefficient w) 0); [lia|].
  rewrite He. simpl. rewrite Z.mul_1_r.
  destruct (Z.leb_spec (10 ^ Models.prec) (Z.abs (Models.coefficient w))); [lia|].
  destruct w as [c e]. simpl in *. by subst e.
Qed.

Lemma validated_amount_is_stable_witness :
  Models.amount_field (Models.mk_Decimal 0 (-2))
  = if 0 <? Models.coefficient (Models.mk_Decimal 0 (-2))
    then Models.Valid (Models.mk_Decimal 0 (-2))
    else Models.Invalid Models.greater_than.
Proof.
  apply (validated_amount_is_stable (Models.mk_Decimal 1 (-3))).
  vm_compute. reflexivity.
Defined.

(** X24: rounding half to even, as [quantize] does it: a multiple of the
    divisor is divided exactly, a tie goes to the even neighbour, and the
    result grows with the number rounded. *)
Theorem div_half_even_properties n n' m :
  0 ≤ n → n ≤ n' → 0 < m →
  Models.div_half_even (n * m) m = n
  ∧ (2 * (n mod m) = m → Z.even (Models.div_half_even n m) = true)
  ∧ Models.div_half_even n m ≤ Models.div_half_even n' m.
Proof.
  intros Hn Hle Hm. split; [|split].
  - unfold Models.div_half_even.
    rewrite Z.div_mul, Z.mod_mul by lia.
    assert ((m <? 2 * 0) = false) as -> by (apply Z.ltb_ge; lia).
    assert ((m =? 2 * 0) = false) as -> by (apply Z.eqb_neq; lia).
    reflexivity.
  - intros Htie. unfold Models.div_half_even.
    assert ((m <? 2 * (n mod m)) = false) as -> by (apply Z.ltb_ge; lia).
    assert ((m =? 2 * (n mod m)) = true) as -> by (apply Z.eqb_eq; lia).
    simpl. destruct (Z.odd (n / m)) eqn:Hodd.
    + rewrite Z.even_add, <- Z.negb_odd, Hodd. reflexivity.
    + by rewrite <- Z.negb_odd, Hodd.
  - pose proof (Z.div_le_mono n n' m Hm Hle) as Hq.
    pose proof (Z.div_mod n m ltac:(lia)) as Hd.
    pose proof (Z.div_mod n' m ltac:(lia)) as Hd'.
    pose proof (Z.mod_pos_bound n m Hm) as Hr.
    pose proof (Z.mod_pos_bound n' m Hm) as Hr'.
    destruct (div_half_even_bounds n m) as [_ [Hlo Hhi]]; [lia..|].
    destruct (div_half_even_bounds n' m) as [_ [Hlo' Hhi']]; [lia..|].
    destruct (Z.eq_dec (n / m) (n' / m)) as [Heq|Hne]; [|lia].
    assert (n mod m ≤ n' mod m) as Hrr by nia.
    unfold Models.div_half_even. rewrite <- Heq.
    destruct (Z.ltb_spec m (2 * (n mod m)));
      destruct (Z.ltb_spec m (2 * (n' mod m)));
      destruct (Z.eqb_spec m (2 * (n mod m)));
      destruct (Z.eqb_spec m (2 * (n' mod m)));
      simpl; try lia; destruct (Z.odd (n / m)); simpl; lia.
Qed.

Lemma div_half_even_properties_witness :
  Models.div_half_even (1005 * 10) 10 = 1005
  ∧ (2 * (1005 mod 10) = 10 → Z.even (Models.div_half_even 1005 10) = true)
  ∧ Models.div_half_even 1005 10 ≤ Models.div_half_even 1006 10.
Proof. apply (div_half_even_properties 1005 1006 10); lia. Defined.

(** ** The Basic authorization header *)

Lemma split_once_sound sep s a b :
  Auth.split_once sep s = Some (a, b) →
  s = a +:+ String sep b ∧ Auth.occurs sep a = false.
Proof.
  revert a b. induction s as [|c s IH]; intros a b; simpl; [discriminate|].
  destruct (Ascii.eqb_spec c sep) as [->|Hne].
  - by intros [= <- <-].
  - destruct (Auth.split_once sep s) as [[a' b']|]; [|discriminate].
    intros [= <- <-]. destruct (IH a' b' eq_refl) as [-> Ha]. simpl.
    split; [done|]. apply Ascii.eqb_neq in Hne. by rewrite Hne.
Qed.

Lemma split_once_complete sep a b :
  Auth.occurs sep a = false →
  Auth.split_once sep (a +:+ String sep b) = Some (a, b).
Proof.
  induction a as [|c a IH]; simpl.
  - intros _. by rewrite Ascii.eqb_refl.
  - intros [Hc Ha]%orb_false_iff. by rewrite Hc, IH.
Qed.

Lemma prefix_Basic s :
  String.prefix "Basic " s = true ↔ ∃ rest, s = "Basic " +:+ rest.
Proof.
  split.
  - intros H.
    repeat (destruct s as [|? s]; cbn [String.prefix] in H; [discriminate|];
            match type of H with
            | context [Ascii.ascii_dec ?x ?y] =>
                destruct (Ascii.ascii_dec x y) as [<-|]; [|discriminate]
            end).
    by exists s.
  - intros [rest ->]. apply String.prefix_correct. simpl.
    by destruct rest.
Qed.

(** X25: [decode_basic_auth] gives credentials exactly for a header made of
    "Basic " and a text that decodes to a name without a colon, a colon and
    a password; the name is what comes before the first colon, so the
    password may itself contain colons; every other header is refused. *)
Theorem decode_basic_auth_correct (b64decode_utf8 : string → option string)
    authorization username password :
  Auth.decode_basic_auth b64decode_utf8 authorization
  = Auth.Credentials username password
  ↔ ∃ encoded,
      authorization = "Basic " +:+ encoded
      ∧ b64decode_utf8 encoded = Some (username +:+ String ":"%char password)
      ∧ Auth.occurs ":"%char username = false.
Proof.
  unfold Auth.decode_basic_auth. split.
  - destruct (String.prefix "Basic " authorization) eqn:Hp; [|discriminate].
    apply prefix_Basic in Hp as [rest ->]. simpl.
    change ("" +:+ rest) with rest.
    destruct (b64decode_utf8 rest) as [dec|] eqn:Hd; [|discriminate].
    destruct (Auth.split_once ":"%char dec) as [[u p]|] eqn:Hs; [|discriminate].
    intros [= <- <-]. apply split_once_sound in Hs as [-> Hu]. by exists rest.
  - intros (encoded & -> & Hd & Hu).
    rewrite (proj2 (prefix_Basic _)) by eauto. simpl.
    change ("" +:+ encoded) with encoded. rewrite Hd.
    by rewrite split_once_complete.
Qed.

(** ** Instances on the tables of the tests *)

Lemma update_balance_frame_witness :
  users (snd (UserCRUD.update_balance db0 1 70000)) !! 2 = users db0 !! 2
  ∧ UserCRUD.get_balance (snd (UserCRUD.update_balance db0 1 70000)) 1 = Some 70000
  ∧ snd (UserCRUD.update_balance db0 3 70000) = db0.
Proof.
  destruct (update_balance_frame db0 1 70000) as (Hother & _ & _ & Hread & _).
  destruct (update_balance_frame db0 3 70000) as (_ & _ & _ & _ & Hnone).
  split; [apply Hother; lia|]. split.
  - apply Hread. vm_compute. reflexivity.
  - apply Hnone. vm_compute. discriminate.
Defined.

Lemma balance_routes_change_total_witness :
  total_balance (snd (Routes.deposit_balance db0 (Models.mk_DepositRequest 1000) john))
  = total_balance db0 + 1000
  ∧ total_balance
      (snd (Routes.withdraw_balance db0 (Models.mk_WithdrawRequest 1000) john))
    = total_balance db0 - 1000.
Proof.
  split.
  - apply (balance_routes_change_total db0 john 1000
             (Models.mk_MessageResponse (Some 101000))).
    vm_compute. reflexivity.
  - apply (balance_routes_change_total db0 john 1000
             (Models.mk_MessageResponse (Some 99000))).
    vm_compute. reflexivity.
Defined.

Lemma balance_is_read_back_witness :
  Routes2.get_balance
    (snd (Routes.deposit_balance db0 (Models.mk_DepositRequest 1000) john)) john
  = Routes2.Ok 101000
  ∧ Routes2.get_balance
      (snd (Routes.withdraw_balance db0 (Models.mk_WithdrawRequest 1000) john)) john
    = Routes2.Ok 99000.
Proof.
  split.
  - apply (balance_is_read_back db0 john 1000 101000). vm_compute. reflexivity.
  - apply (balance_is_read_back db0 john 1000 99000). vm_compute. reflexivity.
Defined.
